(** * Round-trip validation of BSOSE profiles against the upstream grid files

    A shallow embedding of [validation/roundtrip.py].  Python floats and
    numpy float64 values are IEEE binary64 numbers, which is what Rocq's
    primitive [float] is, so the numeric parts of the script ([%], [-1*],
    [numpy.allclose]) are modelled bit for bit.  A cell of a file array is
    compared with a stored Python float in the way numpy promotes the pair,
    which depends on the dtype of the array and on the numpy the script runs
    on; both are part of the data model.  Exceptions are an error monad; the
    [while True] loop is driven by the list of profiles the random sampler
    hands out. *)

From Stdlib Require Import ZArith List String Ascii Bool Floats Lia.
Import ListNotations.

(** ** Exceptions *)

Inductive exn : Type :=
| ValueError
| IndexError
| KeyError
| NameError
| TypeError.

Inductive result (A : Type) : Type :=
| Ok (a : A)
| Raise (e : exn).

Arguments Ok {A} a.
Arguments Raise {A} e.

Definition bind {A B : Type} (c : result A) (k : A -> result B) : result B :=
  match c with
  | Ok a => k a
  | Raise e => Raise e
  end.

Declare Scope py_scope.
Delimit Scope py_scope with py.
Notation "x <- c ;; k" := (bind c (fun x => k))
  (at level 61, c at next level, right associativity) : py_scope.
Notation "' pat <- c ;; k" := (bind c (fun x => match x with pat => k end))
  (at level 61, pat pattern, c at next level, right associativity) : py_scope.
Open Scope py_scope.

(** ** Python and numpy primitives *)

Module Py.

(** [l.index(x)]: the position of the first element equal to [x],
    [ValueError] when there is none. *)
Fixpoint find_index {A : Type} (eqb : A -> A -> bool) (x : A) (l : list A)
  : option nat :=
  match l with
  | [] => None
  | y :: l' => if eqb y x then Some 0%nat
               else option_map S (find_index eqb x l')
  end.

Definition index {A : Type} (eqb : A -> A -> bool) (x : A) (l : list A)
  : result nat :=
  match find_index eqb x l with
  | Some i => Ok i
  | None => Raise ValueError
  end.

(** [l[i]] for a position that came out of [index] or is a literal. *)
Definition getitem {A : Type} (l : list A) (i : nat) : result A :=
  match nth_error l i with
  | Some a => Ok a
  | None => Raise IndexError
  end.

(** [l[i]] for a Python integer: negative positions count from the end. *)
Definition getitem_int {A : Type} (l : list A) (i : Z) : result A :=
  let n := Z.of_nat (List.length l) in
  if (i <? 0)%Z
  then (if (i + n <? 0)%Z then Raise IndexError
        else getitem l (Z.to_nat (i + n)))
  else getitem l (Z.to_nat i).

(** C [fmod(x, 360.0)]: the exact remainder, with the sign of [x]. *)
Definition fmod360 (x : float) : float :=
  match Prim2SF x with
  | S754_nan | S754_infinity _ => nan
  | S754_zero _ => x
  | S754_finite s m e =>
      let r := if (0 <=? e)%Z
               then ((Zpos m * 2 ^ e) mod 360, 0)%Z
               else (Zpos m mod (360 * 2 ^ (- e)), e)%Z in
      let f := Z.ldexp (of_uint63 (Uint63.of_Z (fst r))) (snd r) in
      if s then (- f)%float else f
  end.

(** [x % 360] on a float (CPython's [float_rem] with divisor 360.0): the
    [fmod] remainder, moved up by 360 when it is negative. *)
Definition mod360 (x : float) : float :=
  let md := fmod360 x in
  if negb (md =? 0)%float
  then (if (md <? 0)%float then (md + 360)%float else md)
  else 0%float.

(** [a != b] on two floats. *)
Definition ne (a b : float) : bool := negb (a =? b)%float.

End Py.

Module Numpy.

(** The defaults [rtol=1e-05] and [atol=1e-08], as the doubles they denote. *)
Definition rtol : float := 0x1.4f8b588e368f1p-17%float.
Definition atol : float := 0x1.5798ee2308c3ap-27%float.

(** One element of [numpy.isclose(x, y, equal_nan=True)]. *)
Definition within_tol (x y : float) : bool :=
  (abs (x - y) <=? atol + rtol * abs y)%float.

Definition isclose (x y : float) : bool :=
  (within_tol x y && is_finite y) || (x =? y)%float
  || (is_nan x && is_nan y).

(** Broadcasting of two one-dimensional arrays: equal lengths pair up, a
    length-one array is stretched, anything else cannot be broadcast. *)
Definition broadcast (a b : list float) : result (list (float * float)) :=
  if (List.length a =? List.length b)%nat then Ok (combine a b)
  else match a, b with
       | [x], _ => Ok (map (fun y => (x, y)) b)
       | _, [y] => Ok (map (fun x => (x, y)) a)
       | _, _ => Raise ValueError
       end.

(** [numpy.allclose(a, b, equal_nan=True)]. *)
Definition allclose (a b : list float) : result bool :=
  pairs <- broadcast a b ;;
  Ok (forallb (fun xy => isclose (fst xy) (snd xy)) pairs).

(** The dtype of a floating array.  An array of booleans or integers is
    compared with a Python float as doubles, so it counts as [float64]. *)
Inductive dtype : Type :=
| float32
| float64.

(** [numpy.float32(x)]: the nearest single-precision value (ties to even,
    overflow to infinity), held as the double equal to it. *)
Definition cast32 (x : float) : float :=
  match Prim2SF x with
  | S754_finite s m e => SF2Prim (binary_round 24 128 s m e)
  | _ => x
  end.

Definition astype (d : dtype) (x : float) : float :=
  match d with
  | float32 => cast32 x
  | float64 => x
  end.

(** [v] is a value of dtype [d]. *)
Definition typed (d : dtype) (v : float) : Prop := astype d v = v.

(** The Python float [s] as it enters a comparison with a scalar of dtype
    [d]: NumPy 2 (NEP 50) converts it to [d]; before that the pair was
    compared as doubles. *)
Definition weak_operand (nep50 : bool) (d : dtype) (s : float) : float :=
  if nep50 then astype d s else s.

End Numpy.

(** ** Data model *)

Definition array2 : Type := list (list float).
Definition array3 : Type := list array2.
Definition array4 : Type := list array3.

Definition cells1 (a : list float) : list float := a.
Definition cells2 (a : array2) : list float := List.concat a.
Definition cells3 (a : array3) : list float := List.concat (map cells2 a).

(** A numpy array with its dtype; every cell is a value of that dtype. *)
Record ndarray (A : Type) (cells : A -> list float) : Type := {
  dtype_of : Numpy.dtype;
  values : A;
  values_typed : Forall (Numpy.typed dtype_of) (cells values)
}.

Arguments dtype_of {A cells} n.
Arguments values {A cells} n.
Arguments values_typed {A cells} n.

(** An array of doubles. *)
Fixpoint all_float64 (l : list float) : Forall (Numpy.typed Numpy.float64) l :=
  match l with
  | [] => Forall_nil _
  | v :: l' => Forall_cons v (eq_refl v) (all_float64 l')
  end.

Definition array64 {A : Type} (cells : A -> list float) (a : A)
  : ndarray A cells :=
  {| dtype_of := Numpy.float64;
     values := a;
     values_typed := all_float64 (cells a) |}.

Definition static1 : Type := ndarray (list float) cells1.
Definition static2 : Type := ndarray array2 cells2.
Definition static3 : Type := ndarray array3 cells3.

(** An opened netCDF file: the coordinate axes, the 4-D (time, depth,
    latitude, longitude) variables by name, and the grid fields every file
    carries.  [Zc] is the coordinate the script reads as [coords['Z']]. *)
Record dataset : Type := {
  XC : list float;
  YC : list float;
  Zc : list float;
  data_var : string -> option array4;
  rA : static2;
  Depth : static2;
  maskInC : static2;
  rSurfC : static2;
  rLowC : static2;
  drF : static1;
  hFacC : static3;
  maskC : static3;
  rhoRef : static1
}.

(** A document of [db.bsose]; [coordinates] is
    [p['geolocation']['coordinates']]. *)
Record profile : Type := {
  _id : string;
  metadata : list string;
  coordinates : list float;
  level : float;
  data_info : list (list string);
  data : list (list float);
  cell_z_size : float;
  cell_vertical_fraction : float;
  sea_binary_mask_at_t_locaiton : float;
  reference_density_profile : float
}.

(** A document of [db.timeseriesMeta]; [meta_id] is its [_id]. *)
Record meta : Type := {
  meta_id : string;
  cell_area : float;
  ocean_depth : float;
  interior_2d_mask : float;
  depth_r0_to_ref_surface : float;
  depth_r0_to_bottom : float
}.

(** What the script reads from outside: the files [xarray.open_dataset]
    opens and the metadata collection; and whether the numpy it runs on
    converts Python floats to the dtype of the other operand (NumPy 2). *)
Record world : Type := {
  open_dataset : string -> dataset;
  timeseriesMeta : list meta;
  nep50 : bool
}.

(** ** Array reads *)

Definition variable (f : dataset) (name : string) : result array4 :=
  match data_var f name with
  | Some a => Ok a
  | None => Raise KeyError
  end.

Definition index2 (a : array2) (j i : nat) : result float :=
  row <- Py.getitem a j ;; Py.getitem row i.

Definition index3 (a : array3) (k j i : nat) : result float :=
  plane <- Py.getitem a k ;; index2 plane j i.

(** [a[:, k, j, i]]: one value per time step. *)
Fixpoint point_series (a : array4) (k j i : nat) : result (list float) :=
  match a with
  | [] => Ok []
  | slice :: a' =>
      v <- index3 slice k j i ;;
      vs <- point_series a' k j i ;;
      Ok (v :: vs)
  end.

(** ** The log message *)

Definition nl : string := String (ascii_of_nat 10) EmptyString.

(** The two [logmessage +=] statements of one mismatch branch. *)
Definition log_mismatch (what : string) (p : profile) (logmessage : string)
  : string :=
  ((logmessage ++ (what ++ nl)) ++ (("Profile ID: " ++ _id p) ++ nl))%string.

Definition log_if (c : bool) (what : string) (p : profile)
  (logmessage : string) : string :=
  if c then log_mismatch what p logmessage else logmessage.

(** ** The script *)

Section Script.

Variable W : world.

Definition theta13 : dataset :=
  open_dataset W "data/Theta_bsoseI156_2013_5day.nc".
Definition theta14 : dataset :=
  open_dataset W "data/Theta_bsoseI156_2014_5day.nc".
Definition salt13 : dataset :=
  open_dataset W "data/Salt_bsoseI156_2013_5day.nc".
Definition salt14 : dataset :=
  open_dataset W "data/Salt_bsoseI156_2014_5day.nc".

Definition longitudes : list float := XC theta13.
Definition latitudes : list float := YC theta13.
Definition levels : list float := Zc theta13.

(** [db.timeseriesMeta.find({"_id": p['metadata'][0]})] and its [[0]]. *)
Definition find_meta (p : profile) : result meta :=
  key <- Py.getitem (metadata p) 0 ;;
  Py.getitem (filter (fun m => String.eqb (meta_id m) key) (timeseriesMeta W)) 0.

(** The [try: ... .index(name) except ValueError: -1] blocks. *)
Definition variable_idx (names : list string) (name : string) : Z :=
  match Py.index String.eqb name names with
  | Ok i => Z.of_nat i
  | Raise _ => (-1)%Z
  end.

(** The [if idx > -1: ... else: []] blocks. *)
Definition variable_vector (p : profile) (idx : Z) : result (list float) :=
  if (idx >? -1)%Z then Py.getitem_int (data p) idx else Ok [].

(** One variable of a profile, by name. *)
Definition extract (p : profile) (name : string) : result (list float) :=
  names <- Py.getitem (data_info p) 0 ;;
  variable_vector p (variable_idx names name).

(** Lines 29 and 53-55: the longitude taken modulo 360, the level times
    -1, and the three [.index] lookups. *)
Definition resolve (lon lat level : float) : result (nat * nat * nat) :=
  lonidx <- Py.index PrimFloat.eqb (Py.mod360 lon) longitudes ;;
  latidx <- Py.index PrimFloat.eqb lat latitudes ;;
  levelidx <- Py.index PrimFloat.eqb (-1 * level)%float levels ;;
  Ok (lonidx, latidx, levelidx).

(** Lines 58-61: the 2013 extraction followed by the 2014 extraction.  The
    [float(x)] conversions leave the float64 values as they are. *)
Definition timeseries (name : string) (f13 f14 : dataset)
  (lonidx latidx levelidx : nat) : result (list float) :=
  a13 <- variable f13 name ;;
  s13 <- point_series a13 levelidx latidx lonidx ;;
  a14 <- variable f14 name ;;
  s14 <- point_series a14 levelidx latidx lonidx ;;
  Ok (s13 ++ s14).

Definition theta_timeseries : nat -> nat -> nat -> result (list float) :=
  timeseries "THETA" theta13 theta14.
Definition salt_timeseries : nat -> nat -> nat -> result (list float) :=
  timeseries "SALT" salt13 salt14.

(** Lines 63-68. *)
Definition check_series (what : string) (observed reference : list float)
  (p : profile) (logmessage : string) : result string :=
  close <- Numpy.allclose observed reference ;;
  Ok (log_if (negb close) what p logmessage).

(** [v != stored] for a cell [v] of the array [a] and the Python float
    [stored]. *)
Definition differs {A : Type} {cells : A -> list float}
  (a : ndarray A cells) (v stored : float) : bool :=
  Py.ne v (Numpy.weak_operand (nep50 W) (dtype_of a) stored).

(** The body of the [for f in ...] loop, lines 73-108. *)
Definition check_static (f : dataset) (lonidx latidx levelidx : nat)
  (p : profile) (m : meta) (logmessage : string) : result string :=
  v <- index2 (values (rA f)) latidx lonidx ;;
  let logmessage :=
    log_if (differs (rA f) v (cell_area m)) "Cell area mismatch" p
      logmessage in
  v <- index2 (values (Depth f)) latidx lonidx ;;
  let logmessage :=
    log_if (differs (Depth f) v (ocean_depth m)) "ocean_depth mismatch" p
      logmessage in
  v <- index2 (values (maskInC f)) latidx lonidx ;;
  let logmessage :=
    log_if (differs (maskInC f) v (interior_2d_mask m))
      "interior_2d_mask mismatch" p logmessage in
  v <- index2 (values (rSurfC f)) latidx lonidx ;;
  let logmessage :=
    log_if (differs (rSurfC f) v (depth_r0_to_ref_surface m))
      "depth_r0_to_ref_surface mismatch" p logmessage in
  v <- index2 (values (rLowC f)) latidx lonidx ;;
  let logmessage :=
    log_if (differs (rLowC f) v (depth_r0_to_bottom m))
      "depth_r0_to_bottom mismatch" p logmessage in
  v <- Py.getitem (values (drF f)) levelidx ;;
  let logmessage :=
    log_if (differs (drF f) v (cell_z_size p)) "cell_z_size mismatch" p
      logmessage in
  v <- index3 (values (hFacC f)) levelidx latidx lonidx ;;
  let logmessage :=
    log_if (differs (hFacC f) v (cell_vertical_fraction p))
      "cell_vertical_fraction mismatch" p logmessage in
  v <- index3 (values (maskC f)) levelidx latidx lonidx ;;
  let logmessage :=
    log_if (differs (maskC f) v (sea_binary_mask_at_t_locaiton p))
      "sea_binary_mask_at_t_locaiton mismatch" p logmessage in
  v <- Py.getitem (values (rhoRef f)) levelidx ;;
  let logmessage :=
    log_if (differs (rhoRef f) v (reference_density_profile p))
      "reference_density_profile mismatch" p logmessage in
  Ok logmessage.

Fixpoint check_files (fs : list dataset) (lonidx latidx levelidx : nat)
  (p : profile) (m : meta) (logmessage : string) : result string :=
  match fs with
  | [] => Ok logmessage
  | f :: fs' =>
      logmessage <- check_static f lonidx latidx levelidx p m logmessage ;;
      check_files fs' lonidx latidx levelidx p m logmessage
  end.

Definition files : list dataset := [theta13; theta14; salt13; salt14].

Definition header (p : profile) : string :=
  ("" ++ (("Checking profile id " ++ _id p) ++ nl))%string.

(** Lines 23-50: the metadata document, the coordinates and the two
    variable vectors of the sampled profile. *)
Definition read_profile (p : profile)
  : result (meta * (float * float) * (list float * list float)) :=
  m <- find_meta p ;;
  lat <- Py.getitem (coordinates p) 1 ;;
  lon <- Py.getitem (coordinates p) 0 ;;
  names <- Py.getitem (data_info p) 0 ;;
  let theta_idx := variable_idx names "THETA" in
  let salt_idx := variable_idx names "SALT" in
  theta <- variable_vector p theta_idx ;;
  salt <- variable_vector p salt_idx ;;
  Ok (m, (lon, lat), (theta, salt)).

(** One iteration of the [while True] body for the sampled profile [p]:
    [Some logmessage] when [print(logmessage)] runs, [None] when it does
    not. *)
Definition validation_pass (p : profile) : result (option string) :=
  '(m, (lon, lat), (theta, salt)) <- read_profile p ;;
  let logmessage := header p in
  let loglen := String.length logmessage in
  '(lonidx, latidx, levelidx) <- resolve lon lat (level p) ;;
  theta_ts <- theta_timeseries lonidx latidx levelidx ;;
  salt_ts <- salt_timeseries lonidx latidx levelidx ;;
  logmessage <- check_series "Theta mismatch" theta theta_ts p logmessage ;;
  logmessage <- check_series "Salt mismatch" salt salt_ts p logmessage ;;
  logmessage <- check_files files lonidx latidx levelidx p m logmessage ;;
  Ok (if (loglen <? String.length logmessage)%nat then Some logmessage
      else None).

(** How a run of the loop ends: the sampler stops handing out profiles
    (the process is cancelled from outside) or an exception escapes. *)
Inductive outcome : Type :=
| Cancelled
| Crashed (e : exn).

(** The [while True] loop over the profiles the sampler returns, with the
    texts printed so far. *)
Fixpoint run (samples : list profile) : list string * outcome :=
  match samples with
  | [] => ([], Cancelled)
  | p :: rest =>
      match validation_pass p with
      | Raise e => ([], Crashed e)
      | Ok printed =>
          let (out, o) := run rest in
          (match printed with
           | Some text => text :: out
           | None => out
           end, o)
      end
  end.

End Script.

(** ** The report as a list of findings

    The same pass, with the text of [logmessage] replaced by the list of
    mismatches it stands for; [pass_refines] below shows the script prints
    exactly the rendering of this list. *)

(** Where a finding comes from: a timeseries comparison, or the [n]-th file
    of the static loop. *)
Inductive origin : Type :=
| Series
| File (n : nat).

Definition origin_eqb (a b : origin) : bool :=
  match a, b with
  | Series, Series => true
  | File n, File n' => (n =? n')%nat
  | _, _ => false
  end.

Definition finding : Type := (origin * string)%type.

Definition flag (c : bool) (what : string) : list string :=
  if c then [what] else [].

(** One statically compared field: the text of its mismatch line, the read
    from the file at (lonidx, latidx, levelidx), the dtype of the array read
    and the stored value. *)
Record field : Type := {
  label : string;
  reference : dataset -> nat -> nat -> nat -> result float;
  field_dtype : dataset -> Numpy.dtype;
  stored : profile -> meta -> float
}.

Definition static_fields : list field :=
  [ {| label := "Cell area mismatch";
       reference := fun f i j _ => index2 (values (rA f)) j i;
       field_dtype := fun f => dtype_of (rA f);
       stored := fun _ m => cell_area m |};
    {| label := "ocean_depth mismatch";
       reference := fun f i j _ => index2 (values (Depth f)) j i;
       field_dtype := fun f => dtype_of (Depth f);
       stored := fun _ m => ocean_depth m |};
    {| label := "interior_2d_mask mismatch";
       reference := fun f i j _ => index2 (values (maskInC f)) j i;
       field_dtype := fun f => dtype_of (maskInC f);
       stored := fun _ m => interior_2d_mask m |};
    {| label := "depth_r0_to_ref_surface mismatch";
       reference := fun f i j _ => index2 (values (rSurfC f)) j i;
       field_dtype := fun f => dtype_of (rSurfC f);
       stored := fun _ m => depth_r0_to_ref_surface m |};
    {| label := "depth_r0_to_bottom mismatch";
       reference := fun f i j _ => index2 (values (rLowC f)) j i;
       field_dtype := fun f => dtype_of (rLowC f);
       stored := fun _ m => depth_r0_to_bottom m |};
    {| label := "cell_z_size mismatch";
       reference := fun f _ _ k => Py.getitem (values (drF f)) k;
       field_dtype := fun f => dtype_of (drF f);
       stored := fun p _ => cell_z_size p |};
    {| label := "cell_vertical_fraction mismatch";
       reference := fun f i j k => index3 (values (hFacC f)) k j i;
       field_dtype := fun f => dtype_of (hFacC f);
       stored := fun p _ => cell_vertical_fraction p |};
    {| label := "sea_binary_mask_at_t_locaiton mismatch";
       reference := fun f i j k => index3 (values (maskC f)) k j i;
       field_dtype := fun f => dtype_of (maskC f);
       stored := fun p _ => sea_binary_mask_at_t_locaiton p |};
    {| label := "reference_density_profile mismatch";
       reference := fun f _ _ k => Py.getitem (values (rhoRef f)) k;
       field_dtype := fun f => dtype_of (rhoRef f);
       stored := fun p _ => reference_density_profile p |} ].

(** The stored value of a field as it enters the comparison with a cell of
    the file [f], and whether the cell [v] differs from it. *)
Definition compared (weak : bool) (fd : field) (f : dataset) (p : profile)
  (m : meta) : float :=
  Numpy.weak_operand weak (field_dtype fd f) (stored fd p m).

Fixpoint table_findings (weak : bool) (fields : list field) (f : dataset)
  (lonidx latidx levelidx : nat) (p : profile) (m : meta)
  : result (list string) :=
  match fields with
  | [] => Ok []
  | fd :: fields' =>
      v <- reference fd f lonidx latidx levelidx ;;
      rest <- table_findings weak fields' f lonidx latidx levelidx p m ;;
      Ok (flag (Py.ne v (compared weak fd f p m)) (label fd) ++ rest)
  end.

Fixpoint files_findings (weak : bool) (fs : list dataset) (n : nat)
  (lonidx latidx levelidx : nat) (p : profile) (m : meta)
  : result (list finding) :=
  match fs with
  | [] => Ok []
  | f :: fs' =>
      here <- table_findings weak static_fields f lonidx latidx levelidx p m ;;
      rest <- files_findings weak fs' (S n) lonidx latidx levelidx p m ;;
      Ok (map (pair (File n)) here ++ rest)
  end.

Definition pass_findings (W : world) (p : profile) : result (list finding) :=
  '(m, (lon, lat), (theta, salt)) <- read_profile W p ;;
  '(lonidx, latidx, levelidx) <- resolve W lon lat (level p) ;;
  theta_ts <- theta_timeseries W lonidx latidx levelidx ;;
  salt_ts <- salt_timeseries W lonidx latidx levelidx ;;
  theta_ok <- Numpy.allclose theta theta_ts ;;
  salt_ok <- Numpy.allclose salt salt_ts ;;
  static <- files_findings (nep50 W) (files W) 0 lonidx latidx levelidx p m ;;
  Ok (map (pair Series)
        (flag (negb theta_ok) "Theta mismatch"
         ++ flag (negb salt_ok) "Salt mismatch")
      ++ static).

(** The text of a list of mismatch lines: each one followed by the
    [Profile ID] line. *)
Fixpoint render (p : profile) (whats : list string) : string :=
  match whats with
  | [] => ""
  | w :: ws => ((w ++ nl) ++ (("Profile ID: " ++ _id p) ++ nl) ++ render p ws)%string
  end.

Definition report (p : profile) (fs : list finding) : option string :=
  match fs with
  | [] => None
  | _ => Some (header p ++ render p (map snd fs))%string
  end.

(** A text as its lines, each closed by a newline. *)
Fixpoint unlines (ls : list string) : string :=
  match ls with
  | [] => ""
  | l :: ls' => (l ++ nl ++ unlines ls')%string
  end.

Fixpoint line_count (s : string) : nat :=
  match s with
  | EmptyString => 0
  | String c s' =>
      ((if Ascii.eqb c (ascii_of_nat 10) then 1 else 0) + line_count s')%nat
  end.

(** How often the mismatch line [what] occurs in [ws]. *)
Definition occurrences (what : string) (ws : list string) : nat :=
  List.length (filter (fun w => String.eqb w what) ws).

(** How many findings of [fs] come from [o] with mismatch line [what]. *)
Definition count_findings (o : origin) (what : string) (fs : list finding)
  : nat :=
  List.length
    (filter (fun x => origin_eqb (fst x) o && String.eqb (snd x) what) fs).

(** Pass, fail, or the exception that ended the pass. *)
Inductive verdict : Type :=
| Passes
| Fails
| Errors (e : exn).

Definition pass_verdict (W : world) (p : profile) : verdict :=
  match validation_pass W p with
  | Ok None => Passes
  | Ok (Some _) => Fails
  | Raise e => Errors e
  end.

(** Lines 28-30 and 53-55 on their own: the grid indices of a profile. *)
Definition locate (W : world) (p : profile) : result (nat * nat * nat) :=
  lat <- Py.getitem (coordinates p) 1 ;;
  lon <- Py.getitem (coordinates p) 0 ;;
  resolve W lon lat (level p).

(** Two profile documents with the same content under possibly different
    identifiers. *)
Definition same_data (p1 p2 : profile) : Prop :=
  metadata p1 = metadata p2 /\
  coordinates p1 = coordinates p2 /\
  level p1 = level p2 /\
  data_info p1 = data_info p2 /\
  data p1 = data p2 /\
  cell_z_size p1 = cell_z_size p2 /\
  cell_vertical_fraction p1 = cell_vertical_fraction p2 /\
  sea_binary_mask_at_t_locaiton p1 = sea_binary_mask_at_t_locaiton p2 /\
  reference_density_profile p1 = reference_density_profile p2.



(** The value at [v] lies in [0, 360). *)
Definition wrapped (v : float) : bool := ((0 <=? v) && (v <? 360))%float.

(** [v] sits at position [i] of [axis] and nowhere before it. *)
Definition first_match (axis : list float) (v : float) (i : nat) : Prop :=
  (exists x, nth_error axis i = Some x /\ (x =? v)%float = true) /\
  forall i' x', (i' < i)%nat -> nth_error axis i' = Some x' ->
                (x' =? v)%float = false.

(** ** The loop body, statement by statement

    The names the body binds are module globals: they outlast the iteration
    that bound them, and the next iteration starts with whatever the last
    one left.  Here the body reads and writes them in a namespace, one
    statement at a time; [body_refines] below shows it computes
    [validation_pass] whatever the namespace held before. *)

Inductive value : Type :=
| VStr (s : string)
| VInt (z : Z)
| VFloat (x : float)
| VFloats (l : list float)
| VProfile (p : profile)
| VMeta (m : meta)
| VDataset (f : dataset).

Definition namespace : Type := list (string * value).

Module Ns.

(** [name = v]: the newest binding of a name is the one read. *)
Definition assign (name : string) (v : value) (ns : namespace) : namespace :=
  (name, v) :: ns.

(** Reading a name: [NameError] when it was never bound. *)
Fixpoint lookup (name : string) (ns : namespace) : result value :=
  match ns with
  | [] => Raise NameError
  | (n, v) :: ns' => if String.eqb n name then Ok v else lookup name ns'
  end.

Definition str (name : string) (ns : namespace) : result string :=
  v <- lookup name ns ;;
  match v with VStr s => Ok s | _ => Raise TypeError end.

Definition int (name : string) (ns : namespace) : result Z :=
  v <- lookup name ns ;;
  match v with VInt z => Ok z | _ => Raise TypeError end.

(** An integer read to be used as an array position. *)
Definition idx (name : string) (ns : namespace) : result nat :=
  z <- int name ns ;; Ok (Z.to_nat z).

Definition float (name : string) (ns : namespace) : result PrimFloat.float :=
  v <- lookup name ns ;;
  match v with VFloat x => Ok x | _ => Raise TypeError end.

Definition floats (name : string) (ns : namespace)
  : result (list PrimFloat.float) :=
  v <- lookup name ns ;;
  match v with VFloats l => Ok l | _ => Raise TypeError end.

Definition profile (name : string) (ns : namespace) : result profile :=
  v <- lookup name ns ;;
  match v with VProfile p => Ok p | _ => Raise TypeError end.

Definition meta (name : string) (ns : namespace) : result meta :=
  v <- lookup name ns ;;
  match v with VMeta m => Ok m | _ => Raise TypeError end.

Definition dataset (name : string) (ns : namespace) : result dataset :=
  v <- lookup name ns ;;
  match v with VDataset f => Ok f | _ => Raise TypeError end.

End Ns.

Section Body.

Variable W : world.

(** [logmessage += text]. *)
Definition append_log (text : string) (ns : namespace) : result namespace :=
  logmessage <- Ns.str "logmessage" ns ;;
  Ok (Ns.assign "logmessage" (VStr (logmessage ++ text)) ns).

(** A mismatch branch: [if c:] followed by its two [logmessage +=]. *)
Definition branch (c : bool) (what : string) (ns : namespace)
  : result namespace :=
  if c then
    ns <- append_log (what ++ nl) ns ;;
    p <- Ns.profile "p" ns ;;
    append_log (("Profile ID: " ++ _id p) ++ nl) ns
  else Ok ns.

(** Lines 18-50. *)
Definition body_read (sample : profile) (ns : namespace) : result namespace :=
  let ns := Ns.assign "logmessage" (VStr "") ns in
  let ns := Ns.assign "p" (VProfile sample) ns in
  p <- Ns.profile "p" ns ;;
  m <- find_meta W p ;;
  let ns := Ns.assign "m" (VMeta m) ns in
  p <- Ns.profile "p" ns ;;
  ns <- append_log (("Checking profile id " ++ _id p) ++ nl) ns ;;
  logmessage <- Ns.str "logmessage" ns ;;
  let ns := Ns.assign "loglen" (VInt (Z.of_nat (String.length logmessage))) ns in
  p <- Ns.profile "p" ns ;;
  lat <- Py.getitem (coordinates p) 1 ;;
  let ns := Ns.assign "lat" (VFloat lat) ns in
  p <- Ns.profile "p" ns ;;
  lon <- Py.getitem (coordinates p) 0 ;;
  let ns := Ns.assign "lon" (VFloat (Py.mod360 lon)) ns in
  p <- Ns.profile "p" ns ;;
  let ns := Ns.assign "level" (VFloat (level p)) ns in
  p <- Ns.profile "p" ns ;;
  names <- Py.getitem (data_info p) 0 ;;
  let ns := Ns.assign "theta_idx" (VInt (variable_idx names "THETA")) ns in
  p <- Ns.profile "p" ns ;;
  names <- Py.getitem (data_info p) 0 ;;
  let ns := Ns.assign "salt_idx" (VInt (variable_idx names "SALT")) ns in
  theta_idx <- Ns.int "theta_idx" ns ;;
  theta <- (if (theta_idx >? -1)%Z
            then p <- Ns.profile "p" ns ;; Py.getitem_int (data p) theta_idx
            else Ok []) ;;
  let ns := Ns.assign "theta" (VFloats theta) ns in
  salt_idx <- Ns.int "salt_idx" ns ;;
  salt <- (if (salt_idx >? -1)%Z
           then p <- Ns.profile "p" ns ;; Py.getitem_int (data p) salt_idx
           else Ok []) ;;
  Ok (Ns.assign "salt" (VFloats salt) ns).

(** Lines 53-55. *)
Definition body_locate (ns : namespace) : result namespace :=
  lon <- Ns.float "lon" ns ;;
  lonidx <- Py.index PrimFloat.eqb lon (longitudes W) ;;
  let ns := Ns.assign "lonidx" (VInt (Z.of_nat lonidx)) ns in
  lat <- Ns.float "lat" ns ;;
  latidx <- Py.index PrimFloat.eqb lat (latitudes W) ;;
  let ns := Ns.assign "latidx" (VInt (Z.of_nat latidx)) ns in
  level <- Ns.float "level" ns ;;
  levelidx <- Py.index PrimFloat.eqb (-1 * level)%float (levels W) ;;
  Ok (Ns.assign "levelidx" (VInt (Z.of_nat levelidx)) ns).

(** Lines 58-68. *)
Definition body_series (ns : namespace) : result namespace :=
  levelidx <- Ns.idx "levelidx" ns ;;
  latidx <- Ns.idx "latidx" ns ;;
  lonidx <- Ns.idx "lonidx" ns ;;
  ts <- theta_timeseries W lonidx latidx levelidx ;;
  let ns := Ns.assign "theta_timeseries" (VFloats ts) ns in
  levelidx <- Ns.idx "levelidx" ns ;;
  latidx <- Ns.idx "latidx" ns ;;
  lonidx <- Ns.idx "lonidx" ns ;;
  ts <- salt_timeseries W lonidx latidx levelidx ;;
  let ns := Ns.assign "salt_timeseries" (VFloats ts) ns in
  theta <- Ns.floats "theta" ns ;;
  ts <- Ns.floats "theta_timeseries" ns ;;
  close <- Numpy.allclose theta ts ;;
  ns <- branch (negb close) "Theta mismatch" ns ;;
  salt <- Ns.floats "salt" ns ;;
  ts <- Ns.floats "salt_timeseries" ns ;;
  close <- Numpy.allclose salt ts ;;
  branch (negb close) "Salt mismatch" ns.

(** One [if f[...].values[...] != ...:] of lines 73-108. *)
Definition body_field (fd : field) (ns : namespace) : result namespace :=
  f <- Ns.dataset "f" ns ;;
  levelidx <- Ns.idx "levelidx" ns ;;
  latidx <- Ns.idx "latidx" ns ;;
  lonidx <- Ns.idx "lonidx" ns ;;
  v <- reference fd f lonidx latidx levelidx ;;
  p <- Ns.profile "p" ns ;;
  m <- Ns.meta "m" ns ;;
  branch (Py.ne v (compared (nep50 W) fd f p m)) (label fd) ns.

Fixpoint body_fields (fields : list field) (ns : namespace)
  : result namespace :=
  match fields with
  | [] => Ok ns
  | fd :: fields' => ns <- body_field fd ns ;; body_fields fields' ns
  end.

(** The [for f in ...] loop. *)
Fixpoint body_files (fs : list dataset) (ns : namespace) : result namespace :=
  match fs with
  | [] => Ok ns
  | f :: fs' =>
      ns <- body_fields static_fields (Ns.assign "f" (VDataset f) ns) ;;
      body_files fs' ns
  end.

(** One iteration, lines 18-111: the namespace it leaves and what it
    prints. *)
Definition loop_body (sample : profile) (ns : namespace)
  : result (namespace * option string) :=
  ns <- body_read sample ns ;;
  ns <- body_locate ns ;;
  ns <- body_series ns ;;
  ns <- body_files (files W) ns ;;
  logmessage <- Ns.str "logmessage" ns ;;
  loglen <- Ns.int "loglen" ns ;;
  Ok (ns, if (loglen <? Z.of_nat (String.length logmessage))%Z
          then Some logmessage else None).

(** The [while True] loop with its namespace. *)
Fixpoint loop (samples : list profile) (ns : namespace)
  : list string * outcome :=
  match samples with
  | [] => ([], Cancelled)
  | p :: rest =>
      match loop_body p ns with
      | Raise e => ([], Crashed e)
      | Ok (ns', printed) =>
          let (out, o) := loop rest ns' in
          (match printed with
           | Some text => text :: out
           | None => out
           end, o)
      end
  end.

End Body.

(** What an iteration prints, its verdict, and the grid indices it leaves
    in the namespace. *)
Definition printed_by (r : result (namespace * option string))
  : result (option string) :=
  x <- r ;; Ok (snd x).

Definition verdict_of (r : result (namespace * option string)) : verdict :=
  match r with
  | Ok (_, None) => Passes
  | Ok (_, Some _) => Fails
  | Raise e => Errors e
  end.

Definition indices (ns : namespace) : result (nat * nat * nat) :=
  lonidx <- Ns.idx "lonidx" ns ;;
  latidx <- Ns.idx "latidx" ns ;;
  levelidx <- Ns.idx "levelidx" ns ;;
  Ok (lonidx, latidx, levelidx).

(** A namespace as the static loop sees it. *)
Definition bound (ns : namespace) (log : string) (p : profile) (m : meta)
  (lonidx latidx levelidx : nat) (loglen : Z) : Prop :=
  Ns.lookup "logmessage" ns = Ok (VStr log) /\
  Ns.lookup "p" ns = Ok (VProfile p) /\
  Ns.lookup "m" ns = Ok (VMeta m) /\
  Ns.lookup "lonidx" ns = Ok (VInt (Z.of_nat lonidx)) /\
  Ns.lookup "latidx" ns = Ok (VInt (Z.of_nat latidx)) /\
  Ns.lookup "levelidx" ns = Ok (VInt (Z.of_nat levelidx)) /\
  Ns.lookup "loglen" ns = Ok (VInt loglen).

(** [ns'] differs from [ns] in [logmessage] at most. *)
Definition same_but_log (ns ns' : namespace) : Prop :=
  forall name, String.eqb "logmessage" name = false ->
               Ns.lookup name ns' = Ns.lookup name ns.

(** ** A small grid and a few profiles

    Three longitudes, two latitudes, two depth levels and two time steps
    per file; used to run the definitions on concrete inputs. *)

Module Sample.

Definition plane (v : float) : array2 := repeat (repeat v 3) 2.
Definition cube (v : float) : array3 := repeat (plane v) 2.

(** The cell areas and the ocean depths as single-precision arrays. *)
Definition area32_typed
  : Forall (Numpy.typed Numpy.float32) (cells2 (plane 100)) :=
  ltac:(cbv [cells2 plane List.repeat List.concat app];
        repeat (apply Forall_cons; [reflexivity|]); apply Forall_nil).

Definition area32 : static2 :=
  {| dtype_of := Numpy.float32;
     values := plane 100;
     values_typed := area32_typed |}.

Definition depth32_typed
  : Forall (Numpy.typed Numpy.float32) (cells2 (plane 4000)) :=
  ltac:(cbv [cells2 plane List.repeat List.concat app];
        repeat (apply Forall_cons; [reflexivity|]); apply Forall_nil).

Definition depth32 : static2 :=
  {| dtype_of := Numpy.float32;
     values := plane 4000;
     values_typed := depth32_typed |}.

Definition plane64 (v : float) : static2 := array64 cells2 (plane v).

Definition grid_file (name : string) (series : list float)
  (depth area : static2) : dataset :=
  {| XC := [0.5; 180; 359.5]%float;
     YC := [-60.5; -60.25]%float;
     Zc := [-5; -25]%float;
     data_var := fun n => if String.eqb n name then Some (map cube series)
                          else None;
     rA := area;
     Depth := depth;
     maskInC := plane64 1;
     rSurfC := plane64 0;
     rLowC := plane64 (-4000);
     drF := array64 cells1 [10; 20]%float;
     hFacC := array64 cells3 (cube 1);
     maskC := array64 cells3 (cube 1);
     rhoRef := array64 cells1 [1027; 1028]%float |}.

Definition no_file : dataset :=
  {| XC := []; YC := []; Zc := []; data_var := fun _ => None;
     rA := array64 cells2 []; Depth := array64 cells2 [];
     maskInC := array64 cells2 []; rSurfC := array64 cells2 [];
     rLowC := array64 cells2 []; drF := array64 cells1 [];
     hFacC := array64 cells3 []; maskC := array64 cells3 [];
     rhoRef := array64 cells1 [] |}.

(** The four files: the 2014 temperature file with ocean depths [d14], the
    other three with [d], all with the cell areas [area]. *)
Definition disk (d d14 area : static2) (path : string) : dataset :=
  if String.eqb path "data/Theta_bsoseI156_2013_5day.nc"
  then grid_file "THETA" [1; 2]%float d area
  else if String.eqb path "data/Theta_bsoseI156_2014_5day.nc"
  then grid_file "THETA" [3; 4]%float d14 area
  else if String.eqb path "data/Salt_bsoseI156_2013_5day.nc"
  then grid_file "SALT" [34; 34.5]%float d area
  else if String.eqb path "data/Salt_bsoseI156_2014_5day.nc"
  then grid_file "SALT" [35; 35.5]%float d area
  else no_file.

Definition cell (key : string) (area : float) : meta :=
  {| meta_id := key;
     cell_area := area;
     ocean_depth := 4000;
     interior_2d_mask := 1;
     depth_r0_to_ref_surface := 0;
     depth_r0_to_bottom := -4000 |}.

(** One double above 100. *)
Definition area_off : float := next_up 100.

(** One double above 4000, and a cell whose stored ocean depth it is. *)
Definition deep_off : float := next_up 4000.

Definition deep_cell : meta :=
  {| meta_id := "m3";
     cell_area := 100;
     ocean_depth := deep_off;
     interior_2d_mask := 1;
     depth_r0_to_ref_surface := 0;
     depth_r0_to_bottom := -4000 |}.

Definition metas : list meta :=
  [cell "m1" 100; cell "m2" area_off; deep_cell].

Definition area64 : static2 := plane64 100.

(** Files of doubles. *)
Definition W0 : world :=
  {| open_dataset := disk (plane64 4000) (plane64 4000) area64;
     timeseriesMeta := metas;
     nep50 := true |}.

(** Files whose cell areas are single precision, read under NumPy 2 and
    under NumPy 1. *)
Definition W32 : world :=
  {| open_dataset := disk (plane64 4000) (plane64 4000) area32;
     timeseriesMeta := metas;
     nep50 := true |}.

Definition W32_numpy1 : world :=
  {| open_dataset := disk (plane64 4000) (plane64 4000) area32;
     timeseriesMeta := metas;
     nep50 := false |}.

(** The same files after the 2014 temperature file was regenerated with
    another ocean depth. *)
Definition W1 : world :=
  {| open_dataset := disk (plane64 4000) (plane64 4001) area64;
     timeseriesMeta := metas;
     nep50 := true |}.

(** Three files hold the ocean depth [deep_off] as doubles; the 2014
    temperature file was regenerated in single precision and holds 4000. *)
Definition W_mixed : world :=
  {| open_dataset := disk (plane64 deep_off) depth32 area64;
     timeseriesMeta := metas;
     nep50 := true |}.

Definition make (id key : string) (lon : float) (names : list string)
  (vectors : list (list float)) : profile :=
  {| _id := id;
     metadata := [key];
     coordinates := [lon; -60.25]%float;
     level := 25;
     data_info := [names];
     data := vectors;
     cell_z_size := 20;
     cell_vertical_fraction := 1;
     sea_binary_mask_at_t_locaiton := 1;
     reference_density_profile := 1028 |}.

Definition theta_ok : list float := [1; 2; 3; 4]%float.
Definition salt_ok : list float := [34; 34.5; 35; 35.5]%float.

(** On the grid, everything as in the files. *)
Definition p_ok : profile :=
  make "p_ok" "m1" 359.5 ["THETA"; "SALT"]%string [theta_ok; salt_ok].

(** The same cell under another identifier. *)
Definition p_twin : profile :=
  make "p_twin" "m1" 359.5 ["THETA"; "SALT"]%string [theta_ok; salt_ok].

(** A quarter of a degree off the grid. *)
Definition p_off_grid : profile :=
  make "p_off_grid" "m1" 359.75 ["THETA"; "SALT"]%string [theta_ok; salt_ok].

(** The last temperature differs. *)
Definition p_theta : profile :=
  make "p_theta" "m1" 359.5 ["THETA"; "SALT"]%string [[1; 2; 3; 5]%float; salt_ok].

(** No temperature vector at all. *)
Definition p_no_theta : profile :=
  make "p_no_theta" "m1" 359.5 ["SALT"]%string [salt_ok].

(** Cell area stored one double above the grid value. *)
Definition p_area : profile :=
  make "p_area" "m2" 359.5 ["THETA"; "SALT"]%string [theta_ok; salt_ok].

(** THETA named twice, the second vector being wrong. *)
Definition p_twice : profile :=
  make "p_twice" "m1" 359.5 ["THETA"; "SALT"; "THETA"]%string
    [theta_ok; salt_ok; [9; 9; 9; 9]%float].

(** On the grid, with the ocean depth [deep_off] stored. *)
Definition p_deep : profile :=
  make "p_deep" "m3" 359.5 ["THETA"; "SALT"]%string [theta_ok; salt_ok].

(** What an earlier iteration may have left bound. *)
Definition leftover : namespace :=
  [("logmessage", VStr "left over"); ("theta_idx", VInt 7);
   ("lonidx", VInt 0); ("p", VProfile p_theta)]%string.

(** A longitude just below zero. *)
Definition tiny_west : float := (-0x1p-70)%float.

End Sample.

(** ** Further notions used in the statements below *)

(** The texts [print] receives while the loop goes through [ps], for the
    passes that complete. *)
Definition printed (W : world) (ps : list profile) : list string :=
  flat_map (fun p => match validation_pass W p with
                     | Ok (Some text) => [text]
                     | _ => []
                     end) ps.

(** The pass of [p] completes. *)
Definition completes (W : world) (p : profile) : Prop :=
  exists out, validation_pass W p = Ok out.

(** Every static field of every file of the loop is equal to the value
    stored with the profile. *)
Definition static_match (W : world) (p : profile) (m : meta)
  (lonidx latidx levelidx : nat) : Prop :=
  forall f fd, In f (files W) -> In fd static_fields ->
  exists v, reference fd f lonidx latidx levelidx = Ok v /\
            (v =? stored fd p m)%float = true.

(** Every static field of every file of the loop is equal to the stored
    value as numpy compares the two: the stored value converted as
    [compared] says. *)
Definition static_agree (W : world) (p : profile) (m : meta)
  (lonidx latidx levelidx : nat) : Prop :=
  forall f fd, In f (files W) -> In fd static_fields ->
  exists v, reference fd f lonidx latidx levelidx = Ok v /\
            (v =? compared (nep50 W) fd f p m)%float = true.

(** Whether the field [fd] of the file [f] is reported at the cell. *)
Definition reported (weak : bool) (fd : field) (f : dataset)
  (lonidx latidx levelidx : nat) (p : profile) (m : meta) : bool :=
  match reference fd f lonidx latidx levelidx with
  | Ok v => Py.ne v (compared weak fd f p m)
  | Raise _ => false
  end.

(** The eleven mismatch lines of the script. *)
Definition mismatch_lines : list string :=
  "Theta mismatch"%string :: "Salt mismatch"%string
  :: map label static_fields.

(** The double of an integer of moderate size, and [z / 8] degrees. *)
Definition float_of_Z (z : Z) : float :=
  if (z <? 0)%Z then (- of_uint63 (Uint63.of_Z (- z)))%float
  else of_uint63 (Uint63.of_Z z).

Definition eighths (z : Z) : float := (float_of_Z z / 8)%float.

(** ** Strings *)

Lemma append_assoc (a b c : string) : ((a ++ b) ++ c = a ++ (b ++ c))%string.
Proof. induction a as [|ch a IH]; simpl; [reflexivity | now rewrite IH]. Qed.

Lemma append_empty_r (a : string) : (a ++ "")%string = a.
Proof. induction a as [|ch a IH]; simpl; [reflexivity | now rewrite IH]. Qed.

Lemma length_append (a b : string) :
  String.length (a ++ b) = (String.length a + String.length b)%nat.
Proof. induction a as [|ch a IH]; simpl; [reflexivity | now rewrite IH]. Qed.

(** ** Python lookups *)

Lemma find_index_first {A : Type} (eqb : A -> A -> bool) (x : A) (l : list A)
  (i : nat) :
  Py.find_index eqb x l = Some i <->
  (exists y, nth_error l i = Some y /\ eqb y x = true) /\
  (forall i' y', (i' < i)%nat -> nth_error l i' = Some y' -> eqb y' x = false).
Proof.
  revert i. induction l as [|y l IH]; intros i; simpl.
  - split; [discriminate|]. intros [[z [Hz _]] _]. now destruct i.
  - destruct (eqb y x) eqn:E.
    + split.
      * intros [= <-]. split; [exists y; now split | intros i' y' Hlt; lia].
      * intros [_ Hbefore]. destruct i as [|i]; [reflexivity|].
        specialize (Hbefore 0%nat y (Nat.lt_0_succ i) eq_refl). congruence.
    + destruct (Py.find_index eqb x l) as [n|] eqn:F; simpl.
      * split.
        -- intros [= <-]. destruct (proj1 (IH n) eq_refl) as [Hat Hbefore].
           split; [exact Hat|]. intros [|i'] y' Hlt Hnth; simpl in Hnth.
           ++ congruence.
           ++ apply (Hbefore i' y'); [lia | exact Hnth].
        -- intros [[z [Hz Ez]] Hbefore]. destruct i as [|i]; simpl in Hz.
           ++ congruence.
           ++ f_equal. enough (Some n = Some i) by congruence.
              apply IH. split; [exists z; now split|].
              intros i' y' Hlt Hnth. apply (Hbefore (S i') y'); [lia | exact Hnth].
      * split; [discriminate|]. intros [[z [Hz Ez]] Hbefore].
        destruct i as [|i]; simpl in Hz; [congruence|].
        enough (None = Some i) by discriminate.
        apply IH. split; [exists z; now split|].
        intros i' y' Hlt Hnth. apply (Hbefore (S i') y'); [lia | exact Hnth].
Qed.

Lemma find_index_absent {A : Type} (eqb : A -> A -> bool) (x : A) (l : list A) :
  Py.find_index eqb x l = None <-> forall y, In y l -> eqb y x = false.
Proof.
  induction l as [|y l IH]; simpl.
  - split; [intros _ z [] | reflexivity].
  - destruct (eqb y x) eqn:E.
    + split; [discriminate|]. intros H. specialize (H y (or_introl eq_refl)).
      congruence.
    + destruct (Py.find_index eqb x l) as [n|]; simpl.
      * split; [discriminate|]. intros H.
        assert (Some n = None) by (apply IH; intros z Hz; apply H; now right).
        discriminate.
      * split; [|reflexivity]. intros _ z [<- | Hz]; [exact E|].
        now apply (proj1 IH).
Qed.

Lemma find_index_skip (name : string) (pre post : list string) :
  ~ In name pre ->
  Py.find_index String.eqb name (pre ++ name :: post) = Some (List.length pre).
Proof.
  induction pre as [|y pre IH]; simpl; intros Hnot.
  - now rewrite String.eqb_refl.
  - destruct (String.eqb_spec y name) as [->|Hne].
    + exfalso. apply Hnot. now left.
    + rewrite IH; [reflexivity|]. intros Hin. apply Hnot. now right.
Qed.

Lemma index_raises {A : Type} (eqb : A -> A -> bool) (x : A) (l : list A)
  (e : exn) :
  Py.index eqb x l = Raise e -> e = ValueError /\ Py.find_index eqb x l = None.
Proof.
  unfold Py.index. destruct (Py.find_index eqb x l); [discriminate|].
  intros [= <-]. now split.
Qed.

Lemma getitem_int_nat {A : Type} (l : list A) (n : nat) :
  Py.getitem_int l (Z.of_nat n) = Py.getitem l n.
Proof.
  unfold Py.getitem_int. destruct (Z.ltb_spec (Z.of_nat n) 0); [lia|].
  now rewrite Nat2Z.id.
Qed.

(** ** Variable extraction *)

(** C10: when a variable name occurs several times in the profile's name
    list, extraction reads the data vector at the position of the first
    occurrence; what follows that occurrence in the name list plays no
    part. *)
Theorem extract_first_occurrence (p : profile) (name : string)
  (pre post : list string) (others : list (list string)) :
  data_info p = (pre ++ name :: post) :: others ->
  ~ In name pre ->
  extract p name = Py.getitem (data p) (List.length pre).
Proof.
  intros Hinfo Hnot. unfold extract, variable_vector, variable_idx, Py.index.
  rewrite Hinfo. cbn [Py.getitem nth_error bind].
  rewrite (find_index_skip name pre post Hnot).
  destruct (Z.gtb_spec (Z.of_nat (List.length pre)) (-1)); [|lia].
  apply getitem_int_nat.
Qed.

Lemma extract_first_occurrence_witness :
  extract Sample.p_twice "THETA" = Ok Sample.theta_ok.
Proof.
  exact (extract_first_occurrence Sample.p_twice "THETA" []
           ["SALT"; "THETA"]%string [] eq_refl (fun H : False => H)).
Defined.

(** ** Coordinate lookup *)

Lemma index_present (v : float) (axis : list float) (x : float) :
  In x axis -> (x =? v)%float = true ->
  exists i, Py.index PrimFloat.eqb v axis = Ok i /\ first_match axis v i.
Proof.
  intros Hin Heq. unfold Py.index.
  destruct (Py.find_index PrimFloat.eqb v axis) as [i|] eqn:F.
  - exists i. split; [reflexivity|]. now apply find_index_first.
  - rewrite (proj1 (find_index_absent PrimFloat.eqb v axis) F x Hin) in Heq.
    discriminate.
Qed.

Lemma resolve_ok (W : world) (lon lat level : float) (i j k : nat) :
  resolve W lon lat level = Ok (i, j, k) <->
  first_match (longitudes W) (Py.mod360 lon) i /\
  first_match (latitudes W) lat j /\
  first_match (levels W) (-1 * level)%float k.
Proof.
  unfold resolve, first_match. rewrite <- !find_index_first. unfold Py.index.
  destruct (Py.find_index PrimFloat.eqb (Py.mod360 lon) (longitudes W));
    cbn [bind]; [|split; [discriminate | intros [? _]; discriminate]].
  destruct (Py.find_index PrimFloat.eqb lat (latitudes W));
    cbn [bind]; [|split; [discriminate | intros [_ [? _]]; discriminate]].
  destruct (Py.find_index PrimFloat.eqb (-1 * level)%float (levels W));
    cbn [bind]; [|split; [discriminate | intros [_ [_ ?]]; discriminate]].
  split; [intros [= -> -> ->]; auto | intros [[= ->] [[= ->] [= ->]]]; auto].
Qed.

Lemma resolve_raises (W : world) (lon lat level : float) (e : exn) :
  resolve W lon lat level = Raise e ->
  e = ValueError /\
  ((forall x, In x (longitudes W) -> (x =? Py.mod360 lon)%float = false) \/
   (forall y, In y (latitudes W) -> (y =? lat)%float = false) \/
   (forall z, In z (levels W) -> (z =? -1 * level)%float = false)).
Proof.
  unfold resolve.
  destruct (Py.index PrimFloat.eqb (Py.mod360 lon) (longitudes W)) eqn:E1;
    cbn [bind].
  2:{ intros [= <-]. destruct (index_raises _ _ _ _ E1) as [-> F].
      split; [reflexivity|]. left. now apply find_index_absent. }
  destruct (Py.index PrimFloat.eqb lat (latitudes W)) eqn:E2; cbn [bind].
  2:{ intros [= <-]. destruct (index_raises _ _ _ _ E2) as [-> F].
      split; [reflexivity|]. right; left. now apply find_index_absent. }
  destruct (Py.index PrimFloat.eqb (-1 * level)%float (levels W)) eqn:E3;
    cbn [bind]; [discriminate|].
  intros [= <-]. destruct (index_raises _ _ _ _ E3) as [-> F].
  split; [reflexivity|]. right; right. now apply find_index_absent.
Qed.

(** C4, as the script has it: the longitude is taken modulo 360 with
    Python's float remainder, the level is multiplied by -1, and each axis
    is searched for a value equal to the normalized one.  Whenever the three
    normalized values occur in the axes, [resolve] returns indices, they are
    the first positions holding those values, and the axis entries there
    are equal to the normalized longitude, the latitude and the negated
    level. *)
Theorem resolve_exact_lookup (W : world) (lon lat level x y z : float) :
  In x (longitudes W) -> (x =? Py.mod360 lon)%float = true ->
  In y (latitudes W) -> (y =? lat)%float = true ->
  In z (levels W) -> (z =? -1 * level)%float = true ->
  exists i j k,
    resolve W lon lat level = Ok (i, j, k) /\
    first_match (longitudes W) (Py.mod360 lon) i /\
    first_match (latitudes W) lat j /\
    first_match (levels W) (-1 * level)%float k.
Proof.
  intros Hx Ex Hy Ey Hz Ez.
  destruct (index_present _ _ _ Hx Ex) as [i [Hi Fi]].
  destruct (index_present _ _ _ Hy Ey) as [j [Hj Fj]].
  destruct (index_present _ _ _ Hz Ez) as [k [Hk Fk]].
  exists i, j, k. repeat split; try apply Fi; try apply Fj; try apply Fk.
  unfold resolve. now rewrite Hi, Hj, Hk.
Qed.

Lemma resolve_exact_lookup_witness :
  exists i j k,
    resolve Sample.W0 (-0.5) (-60.25) 25 = Ok (i, j, k) /\
    first_match (longitudes Sample.W0) (Py.mod360 (-0.5)) i /\
    first_match (latitudes Sample.W0) (-60.25) j /\
    first_match (levels Sample.W0) (-1 * 25)%float k.
Proof.
  apply (resolve_exact_lookup Sample.W0 (-0.5) (-60.25) 25 359.5 (-60.25) (-25)).
  - vm_compute. tauto.
  - vm_compute. reflexivity.
  - vm_compute. tauto.
  - vm_compute. reflexivity.
  - vm_compute. tauto.
  - vm_compute. reflexivity.
Defined.

(** C4, against the claim as stated: a finite longitude just below zero is
    taken by [% 360] to 360.0 itself, outside [0, 360). *)
Lemma mod360_leaves_range :
  is_finite Sample.tiny_west = true /\
  Py.mod360 Sample.tiny_west = 360%float /\
  wrapped (Py.mod360 Sample.tiny_west) = false.
Proof. vm_compute. repeat split. Qed.

(** ** The printed text is the rendering of the findings *)

Lemma render_app (p : profile) (a b : list string) :
  render p (a ++ b) = (render p a ++ render p b)%string.
Proof.
  induction a as [|w a IH]; cbn [render app]; [reflexivity|].
  now rewrite IH, !append_assoc.
Qed.

Lemma log_if_render (c : bool) (what : string) (p : profile) (log : string) :
  log_if c what p log = (log ++ render p (flag c what))%string.
Proof.
  destruct c; cbn [log_if flag render].
  - unfold log_mismatch. now rewrite append_empty_r, !append_assoc.
  - now rewrite append_empty_r.
Qed.

Lemma render_length (p : profile) (ws : list string) :
  String.length (render p ws) = 0%nat -> ws = [].
Proof.
  destruct ws as [|w ws]; [reflexivity|]. cbn [render].
  rewrite !length_append. unfold nl. cbn [String.length]. lia.
Qed.

Lemma map_snd_pair (o : origin) (ws : list string) :
  map snd (map (pair o) ws) = ws.
Proof. induction ws as [|w ws IH]; cbn; [reflexivity | now rewrite IH]. Qed.

Ltac read_or_raise :=
  match goal with
  | |- context [bind ?c _] =>
      match c with
      | bind _ _ => fail 1
      | _ => destruct c; cbn [bind]; [|reflexivity]
      end
  end.

Lemma check_static_refines (W : world) (f : dataset) (i j k : nat)
  (p : profile) (m : meta) (log : string) :
  check_static W f i j k p m log =
  (fs <- table_findings (nep50 W) static_fields f i j k p m ;;
   Ok (log ++ render p fs)%string).
Proof.
  unfold check_static, static_fields, differs, compared.
  cbn [table_findings reference stored label field_dtype].
  do 9 read_or_raise.
  rewrite !log_if_render, !render_app, !append_assoc.
  cbn [render]. now rewrite !append_empty_r.
Qed.

Lemma check_files_refines (W : world) (fs : list dataset) (n i j k : nat)
  (p : profile) (m : meta) (log : string) :
  check_files W fs i j k p m log =
  (r <- files_findings (nep50 W) fs n i j k p m ;;
   Ok (log ++ render p (map snd r))%string).
Proof.
  revert n log. induction fs as [|f fs IH]; intros n log;
    cbn [check_files files_findings bind].
  - cbn. now rewrite append_empty_r.
  - rewrite check_static_refines.
    destruct (table_findings (nep50 W) static_fields f i j k p m) as [here|e];
      cbn [bind]; [|reflexivity].
    rewrite (IH (S n)).
    destruct (files_findings (nep50 W) fs (S n) i j k p m) as [rest|e];
      cbn [bind]; [|reflexivity].
    now rewrite map_app, map_snd_pair, render_app, append_assoc.
Qed.

Lemma report_of_log (p : profile) (fs : list finding) :
  (if (String.length (header p)
       <? String.length (header p ++ render p (map snd fs)))%nat
   then Some (header p ++ render p (map snd fs))%string
   else None) = report p fs.
Proof.
  rewrite length_append.
  destruct (Nat.ltb_spec (String.length (header p))
              (String.length (header p)
               + String.length (render p (map snd fs)))) as [Hlt|Hge].
  - destruct fs; [cbn in Hlt; lia | reflexivity].
  - assert (map snd fs = []) as Hnil by (apply (render_length p); lia).
    destruct fs; [reflexivity | discriminate].
Qed.

(** The script prints exactly the report of [pass_findings], and raises
    exactly when [pass_findings] does. *)
Lemma pass_refines (W : world) (p : profile) :
  validation_pass W p = (fs <- pass_findings W p ;; Ok (report p fs)).
Proof.
  unfold validation_pass, pass_findings.
  destruct (read_profile W p) as [[[m [lon lat]] [theta salt]]|e];
    cbn [bind]; [|reflexivity].
  destruct (resolve W lon lat (level p)) as [[[i j] k]|e];
    cbn [bind]; [|reflexivity].
  destruct (theta_timeseries W i j k) as [theta_ts|e];
    cbn [bind]; [|reflexivity].
  destruct (salt_timeseries W i j k) as [salt_ts|e];
    cbn [bind]; [|reflexivity].
  unfold check_series.
  destruct (Numpy.allclose theta theta_ts) as [c1|e];
    cbn [bind]; [|reflexivity].
  destruct (Numpy.allclose salt salt_ts) as [c2|e];
    cbn [bind]; [|reflexivity].
  rewrite (check_files_refines W (files W) 0).
  destruct (files_findings (nep50 W) (files W) 0 i j k p m) as [static|e];
    cbn [bind]; [|reflexivity].
  rewrite <- report_of_log, map_app, map_snd_pair.
  now rewrite !log_if_render, !render_app, !append_assoc.
Qed.

(** ** Static fields, file by file *)

Lemma static_labels_distinct : NoDup (map label static_fields).
Proof.
  cbn [map static_fields label].
  repeat (constructor; [cbn [In]; intuition discriminate|]). constructor.
Qed.

Lemma occurrences_app (w : string) (a b : list string) :
  occurrences w (a ++ b) = (occurrences w a + occurrences w b)%nat.
Proof. unfold occurrences. now rewrite filter_app, length_app. Qed.

Lemma occurrences_absent (w : string) (ws : list string) :
  ~ In w ws -> occurrences w ws = 0%nat.
Proof.
  unfold occurrences. induction ws as [|x ws IH]; cbn [filter]; intros Hnot.
  - reflexivity.
  - destruct (String.eqb_spec x w) as [->|_].
    + exfalso. apply Hnot. now left.
    + apply IH. intros Hin. apply Hnot. now right.
Qed.

Lemma occurrences_flag (w : string) (c : bool) (what : string) :
  occurrences w (flag c what)
  = if c && String.eqb what w then 1%nat else 0%nat.
Proof.
  unfold occurrences. destruct c; cbn [flag filter andb]; [|reflexivity].
  now destruct (String.eqb what w).
Qed.

Lemma table_findings_labels (weak : bool) (fields : list field) (f : dataset) (i j k : nat)
  (p : profile) (m : meta) (fs : list string) :
  table_findings weak fields f i j k p m = Ok fs ->
  forall w, In w fs -> In w (map label fields).
Proof.
  revert fs. induction fields as [|fd fields IH]; intros fs;
    cbn [table_findings map].
  - intros [= <-] w [].
  - destruct (reference fd f i j k) as [v|e]; cbn [bind]; [|discriminate].
    destruct (table_findings weak fields f i j k p m) as [rest|e];
      cbn [bind]; [|discriminate].
    intros [= <-] w Hin. apply in_app_or in Hin. destruct Hin as [Hin|Hin].
    + left. unfold flag in Hin.
      destruct (Py.ne v (compared weak fd f p m));
        [destruct Hin as [<-|[]]; reflexivity | destruct Hin].
    + right. now apply (IH rest).
Qed.

Lemma table_findings_count (weak : bool) (fields : list field) (f : dataset) (i j k : nat)
  (p : profile) (m : meta) (fs : list string) :
  NoDup (map label fields) ->
  table_findings weak fields f i j k p m = Ok fs ->
  forall fd, In fd fields ->
  exists v, reference fd f i j k = Ok v /\
            occurrences (label fd) fs
            = if (v =? compared weak fd f p m)%float then 0%nat else 1%nat.
Proof.
  revert fs. induction fields as [|fd0 fields IH]; intros fs Hnd;
    cbn [table_findings map] in *.
  - intros _ fd [].
  - inversion Hnd as [|l ls Hfresh Hnd']; subst.
    destruct (reference fd0 f i j k) as [v0|e] eqn:R; cbn [bind];
      [|discriminate].
    destruct (table_findings weak fields f i j k p m) as [rest|e] eqn:T;
      cbn [bind]; [|discriminate].
    intros [= <-] fd [<-|Hin]; rewrite occurrences_app, occurrences_flag.
    + exists v0. split; [exact R|].
      rewrite String.eqb_refl, andb_true_r.
      rewrite (occurrences_absent (label fd0) rest).
      * unfold Py.ne. now destruct (v0 =? compared weak fd0 f p m)%float.
      * intros Hin. apply Hfresh.
        exact (table_findings_labels weak fields f i j k p m rest T _ Hin).
    + destruct (IH rest Hnd' eq_refl fd Hin) as [v [Hv Hcount]].
      exists v. split; [exact Hv|]. rewrite Hcount.
      destruct (String.eqb_spec (label fd0) (label fd)) as [E|_].
      * exfalso. apply Hfresh. rewrite E. now apply in_map.
      * now rewrite andb_false_r.
Qed.

Lemma count_findings_app (o : origin) (w : string) (a b : list finding) :
  count_findings o w (a ++ b)
  = (count_findings o w a + count_findings o w b)%nat.
Proof. unfold count_findings. now rewrite filter_app, length_app. Qed.

Lemma count_findings_tagged (o o' : origin) (w : string) (ws : list string) :
  count_findings o w (map (pair o') ws)
  = if origin_eqb o' o then occurrences w ws else 0%nat.
Proof.
  unfold count_findings, occurrences.
  induction ws as [|x ws IH]; cbn [map filter fst snd].
  - now destruct (origin_eqb o' o).
  - destruct (origin_eqb o' o) eqn:E; cbn [andb].
    + destruct (String.eqb x w); cbn [List.length]; now rewrite IH.
    + exact IH.
Qed.

Lemma files_findings_later (weak : bool) (fs : list dataset) (n0 i j k : nat) (p : profile)
  (m : meta) (r : list finding) (o : origin) (w : string) :
  files_findings weak fs n0 i j k p m = Ok r ->
  (forall n, o = File n -> (n < n0)%nat) ->
  count_findings o w r = 0%nat.
Proof.
  revert n0 r. induction fs as [|f fs IH]; intros n0 r;
    cbn [files_findings].
  - intros [= <-] _. reflexivity.
  - destruct (table_findings weak static_fields f i j k p m) as [here|e];
      cbn [bind]; [|discriminate].
    destruct (files_findings weak fs (S n0) i j k p m) as [rest|e] eqn:F;
      cbn [bind]; [|discriminate].
    intros [= <-] Hlow. rewrite count_findings_app, count_findings_tagged.
    rewrite (IH (S n0) rest F) by (intros n Hn; specialize (Hlow n Hn); lia).
    destruct o as [|n]; cbn [origin_eqb]; [reflexivity|].
    specialize (Hlow n eq_refl).
    destruct (Nat.eqb_spec n0 n); [lia | reflexivity].
Qed.

Lemma files_findings_count (weak : bool) (fs : list dataset) (n0 i j k : nat) (p : profile)
  (m : meta) (r : list finding) :
  files_findings weak fs n0 i j k p m = Ok r ->
  forall n f, nth_error fs n = Some f ->
  exists here, table_findings weak static_fields f i j k p m = Ok here /\
               forall w, count_findings (File (n0 + n)) w r
                         = occurrences w here.
Proof.
  revert n0 r. induction fs as [|f0 fs IH]; intros n0 r;
    cbn [files_findings].
  - intros _ [|n] f; discriminate.
  - destruct (table_findings weak static_fields f0 i j k p m) as [here|e] eqn:T;
      cbn [bind]; [|discriminate].
    destruct (files_findings weak fs (S n0) i j k p m) as [rest|e] eqn:F;
      cbn [bind]; [|discriminate].
    intros [= <-] [|n] f; cbn [nth_error].
    + intros [= <-]. exists here. split; [exact T|]. intros w.
      rewrite count_findings_app, count_findings_tagged, Nat.add_0_r.
      cbn [origin_eqb]. rewrite Nat.eqb_refl.
      rewrite (files_findings_later weak fs (S n0) i j k p m rest (File n0) w F);
        [lia|].
      intros n [= <-]. lia.
    + intros Hnth. destruct (IH (S n0) rest F n f Hnth) as [h [Hh Hcount]].
      exists h. split; [exact Hh|]. intros w.
      rewrite count_findings_app, count_findings_tagged.
      cbn [origin_eqb]. destruct (Nat.eqb_spec n0 (n0 + S n)); [lia|].
      replace (n0 + S n)%nat with (S n0 + n)%nat by lia. apply Hcount.
Qed.

(** ** The pass as a whole *)

Lemma read_profile_ok (W : world) (p : profile) (m : meta) (lon lat : float)
  (theta salt : list float) :
  read_profile W p = Ok (m, (lon, lat), (theta, salt)) ->
  find_meta W p = Ok m /\
  Py.getitem (coordinates p) 1 = Ok lat /\
  Py.getitem (coordinates p) 0 = Ok lon /\
  extract p "THETA" = Ok theta /\
  extract p "SALT" = Ok salt.
Proof.
  unfold read_profile, extract.
  destruct (find_meta W p) as [m'|e]; cbn [bind]; [|discriminate].
  destruct (Py.getitem (coordinates p) 1) as [lat'|e]; cbn [bind];
    [|discriminate].
  destruct (Py.getitem (coordinates p) 0) as [lon'|e]; cbn [bind];
    [|discriminate].
  destruct (Py.getitem (data_info p) 0) as [names|e]; cbn [bind];
    [|discriminate].
  destruct (variable_vector p (variable_idx names "THETA")) as [th|e];
    cbn [bind]; [|discriminate].
  destruct (variable_vector p (variable_idx names "SALT")) as [sa|e];
    cbn [bind]; [|discriminate].
  intros [= -> -> -> -> ->]. auto.
Qed.

Lemma locate_of_read (W : world) (p : profile) (m : meta) (lon lat : float)
  (theta salt : list float) :
  read_profile W p = Ok (m, (lon, lat), (theta, salt)) ->
  locate W p = resolve W lon lat (level p).
Proof.
  intros H. destruct (read_profile_ok W p m lon lat theta salt H)
    as [_ [Hlat [Hlon _]]].
  unfold locate. now rewrite Hlat, Hlon.
Qed.

Lemma resolve_absent (W : world) (lon lat level : float) :
  (forall x, In x (longitudes W) -> (x =? Py.mod360 lon)%float = false) \/
  (forall y, In y (latitudes W) -> (y =? lat)%float = false) \/
  (forall z, In z (levels W) -> (z =? -1 * level)%float = false) ->
  resolve W lon lat level = Raise ValueError.
Proof.
  intros Habsent.
  destruct (resolve W lon lat level) as [[[i j] k]|e] eqn:R.
  - exfalso. apply resolve_ok in R.
    destruct R as [[[x [Hx Ex]] _] [[[y [Hy Ey]] _] [[z [Hz Ez]] _]]].
    apply nth_error_In in Hx, Hy, Hz.
    destruct Habsent as [H|[H|H]];
      [rewrite (H x Hx) in Ex | rewrite (H y Hy) in Ey
       | rewrite (H z Hz) in Ez]; discriminate.
  - now destruct (resolve_raises W lon lat level e R) as [-> _].
Qed.

Lemma run_raise (W : world) (p : profile) (rest : list profile) (e : exn) :
  validation_pass W p = Raise e -> run W (p :: rest) = ([], Crashed e).
Proof. intros H. cbn [run]. now rewrite H. Qed.

(** C1, as the script has it: once the profile has been read, a longitude
    (modulo 360), latitude or negated level without an equal entry in its
    axis makes the pass raise [ValueError]; the loop has no handler for it,
    so nothing is printed for that profile, no later selection is processed
    and the run ends with that exception. *)
Theorem coordinate_miss_ends_run (W : world) (p : profile)
  (rest : list profile) (m : meta) (lon lat : float)
  (theta salt : list float) :
  read_profile W p = Ok (m, (lon, lat), (theta, salt)) ->
  (forall x, In x (longitudes W) -> (x =? Py.mod360 lon)%float = false) \/
  (forall y, In y (latitudes W) -> (y =? lat)%float = false) \/
  (forall z, In z (levels W) -> (z =? -1 * level p)%float = false) ->
  validation_pass W p = Raise ValueError /\
  run W (p :: rest) = ([], Crashed ValueError).
Proof.
  intros Hread Habsent.
  assert (validation_pass W p = Raise ValueError) as Hpass.
  { unfold validation_pass. rewrite Hread. cbn [bind].
    now rewrite (resolve_absent W lon lat (level p) Habsent). }
  split; [exact Hpass | now apply run_raise].
Qed.

Lemma coordinate_miss_ends_run_witness :
  validation_pass Sample.W0 Sample.p_off_grid = Raise ValueError /\
  run Sample.W0 [Sample.p_off_grid; Sample.p_theta]
  = ([], Crashed ValueError).
Proof.
  apply (coordinate_miss_ends_run Sample.W0 Sample.p_off_grid
           [Sample.p_theta] (Sample.cell "m1" 100) 359.75 (-60.25)
           Sample.theta_ok Sample.salt_ok).
  - vm_compute. reflexivity.
  - left. intros x Hx. vm_compute in Hx.
    destruct Hx as [<-|[<-|[<-|[]]]]; vm_compute; reflexivity.
Defined.

(** C1, against the claim as stated: a profile a quarter of a degree off
    the grid ends the run with [ValueError]; nothing is reported for it, and
    the next selection, whose mismatch would have been printed, is never
    looked at. *)
Lemma off_grid_profile_stops_loop :
  locate Sample.W0 Sample.p_off_grid = Raise ValueError /\
  run Sample.W0 [Sample.p_off_grid; Sample.p_theta]
  = ([], Crashed ValueError) /\
  run Sample.W0 [Sample.p_theta]
  = ([unlines ["Checking profile id p_theta"; "Theta mismatch";
               "Profile ID: p_theta"]%string], Cancelled).
Proof. vm_compute. repeat split. Qed.

(** C2, as the script has it: every static field, mask or physical float
    alike, is compared with [!=] and no tolerance.  The text one file adds
    to the log is the rendering of a list of mismatch lines, and the line of
    a field is in that list exactly when the value read from the file is not
    equal to the stored value as numpy brings it into the comparison: the
    stored double itself when the array read is [float64] or numpy compares
    as doubles, the stored double rounded to the array's precision
    otherwise. *)
Theorem static_fields_compared_exactly (W : world) (f : dataset)
  (i j k : nat) (p : profile) (m : meta) (log log' : string) :
  check_static W f i j k p m log = Ok log' ->
  exists fs,
    log' = (log ++ render p fs)%string /\
    forall fd, In fd static_fields ->
    exists v,
      reference fd f i j k = Ok v /\
      (In (label fd) fs
       <-> (v =? compared (nep50 W) fd f p m)%float = false) /\
      (field_dtype fd f = Numpy.float64 \/ nep50 W = false ->
       compared (nep50 W) fd f p m = stored fd p m) /\
      (field_dtype fd f = Numpy.float32 -> nep50 W = true ->
       compared (nep50 W) fd f p m = Numpy.cast32 (stored fd p m)).
Proof.
  rewrite check_static_refines.
  destruct (table_findings (nep50 W) static_fields f i j k p m)
    as [fs|e] eqn:T; cbn [bind]; [|discriminate].
  intros [= <-]. exists fs. split; [reflexivity|]. intros fd Hfd.
  destruct (table_findings_count (nep50 W) static_fields f i j k p m fs
              static_labels_distinct T fd Hfd) as [v [Hv Hcount]].
  exists v. split; [exact Hv|]. split; [|split].
  - destruct (v =? compared (nep50 W) fd f p m)%float; split.
    + intros Hin. exfalso. revert Hin Hcount. unfold occurrences.
      clear. induction fs as [|w fs IH]; cbn [In filter]; [tauto|].
      intros [->|Hin]; [rewrite String.eqb_refl; discriminate|].
      destruct (String.eqb w (label fd)); [discriminate | now apply IH].
    + discriminate.
    + reflexivity.
    + intros _. destruct (in_dec string_dec (label fd) fs) as [Hin|Hnot];
        [exact Hin|]. rewrite (occurrences_absent _ _ Hnot) in Hcount.
      discriminate.
  - unfold compared, Numpy.weak_operand. intros [->| ->]; [|reflexivity].
    now destruct (nep50 W).
  - unfold compared, Numpy.weak_operand. now intros -> ->.
Qed.

Lemma static_fields_compared_exactly_witness :
  exists fs,
    unlines ["Cell area mismatch"; "Profile ID: p_area"]%string
    = ("" ++ render Sample.p_area fs)%string /\
    forall fd, In fd static_fields ->
    exists v,
      reference fd (theta13 Sample.W0) 2 1 1 = Ok v /\
      (In (label fd) fs
       <-> (v =? compared (nep50 Sample.W0) fd (theta13 Sample.W0)
                   Sample.p_area (Sample.cell "m2" Sample.area_off))%float
           = false) /\
      (field_dtype fd (theta13 Sample.W0) = Numpy.float64
       \/ nep50 Sample.W0 = false ->
       compared (nep50 Sample.W0) fd (theta13 Sample.W0) Sample.p_area
         (Sample.cell "m2" Sample.area_off)
       = stored fd Sample.p_area (Sample.cell "m2" Sample.area_off)) /\
      (field_dtype fd (theta13 Sample.W0) = Numpy.float32 ->
       nep50 Sample.W0 = true ->
       compared (nep50 Sample.W0) fd (theta13 Sample.W0) Sample.p_area
         (Sample.cell "m2" Sample.area_off)
       = Numpy.cast32
           (stored fd Sample.p_area (Sample.cell "m2" Sample.area_off))).
Proof.
  apply (static_fields_compared_exactly Sample.W0 (theta13 Sample.W0) 2 1 1
           Sample.p_area (Sample.cell "m2" Sample.area_off) ""
           (unlines ["Cell area mismatch"; "Profile ID: p_area"]%string)).
  vm_compute. reflexivity.
Defined.

(** C2, against the claim as stated: a cell area stored one double above
    the grid value is within the tolerance of [numpy.isclose], and each of
    the four files of doubles still adds a finding for it. *)
Lemma roundoff_in_cell_area_is_reported :
  Numpy.isclose 100 Sample.area_off = true /\
  check_static Sample.W0 (theta13 Sample.W0) 2 1 1 Sample.p_area
    (Sample.cell "m2" Sample.area_off) ""
  = Ok (unlines ["Cell area mismatch"; "Profile ID: p_area"]%string) /\
  pass_findings Sample.W0 Sample.p_area
  = Ok [(File 0, "Cell area mismatch"); (File 1, "Cell area mismatch");
        (File 2, "Cell area mismatch"); (File 3, "Cell area mismatch")]%string.
Proof. vm_compute. repeat split. Qed.

(** The same profile against files whose cell areas are single precision:
    silent when numpy rounds the stored double to single precision first,
    reported four times when it compares as doubles. *)
Lemma single_precision_cell_area :
  validation_pass Sample.W32 Sample.p_area = Ok None /\
  pass_findings Sample.W32_numpy1 Sample.p_area
  = Ok [(File 0, "Cell area mismatch"); (File 1, "Cell area mismatch");
        (File 2, "Cell area mismatch"); (File 3, "Cell area mismatch")]%string.
Proof. vm_compute. repeat split. Qed.

Lemma static_label_not_series (fd : field) :
  In fd static_fields ->
  String.eqb "Theta mismatch" (label fd) = false /\
  String.eqb "Salt mismatch" (label fd) = false.
Proof.
  cbn [static_fields In]. intros Hin.
  repeat (destruct Hin as [<-|Hin]; [split; reflexivity|]).
  destruct Hin.
Qed.

Lemma files_findings_total (weak : bool) (fs : list dataset) (n0 i j k : nat)
  (p : profile) (m : meta) (r : list finding) (fd : field) :
  files_findings weak fs n0 i j k p m = Ok r ->
  In fd static_fields ->
  occurrences (label fd) (map snd r)
  = List.length (filter (fun f => reported weak fd f i j k p m) fs).
Proof.
  intros F Hfd. revert n0 r F.
  induction fs as [|f fs IH]; intros n0 r; cbn [files_findings filter].
  - intros [= <-]. reflexivity.
  - destruct (table_findings weak static_fields f i j k p m) as [here|e] eqn:T;
      cbn [bind]; [|discriminate].
    destruct (files_findings weak fs (S n0) i j k p m) as [rest|e] eqn:F;
      cbn [bind]; [|discriminate].
    intros [= <-]. rewrite map_app, map_snd_pair, occurrences_app.
    rewrite (IH (S n0) rest F).
    destruct (table_findings_count weak static_fields f i j k p m here
                static_labels_distinct T fd Hfd) as [v [Hv Hocc]].
    rewrite Hocc. unfold reported. rewrite Hv. unfold Py.ne.
    destruct (v =? compared weak fd f p m)%float; reflexivity.
Qed.

(** C7, as the script has it: each file of the static loop is checked on
    its own.  For every static field and every file of the loop, the
    findings of the pass contain exactly one entry from that file for that
    field when the value in the file differs from the stored one in numpy's
    comparison, and none when they are equal; and the mismatch line of the
    field stands in the report as many times as there are files in which it
    differs. *)
Theorem static_fields_checked_per_file (W : world) (p : profile)
  (out : option string) :
  validation_pass W p = Ok out ->
  exists fs m i j k,
    pass_findings W p = Ok fs /\ out = report p fs /\
    find_meta W p = Ok m /\ locate W p = Ok (i, j, k) /\
    forall fd, In fd static_fields ->
      (forall n f, nth_error (files W) n = Some f ->
       exists v, reference fd f i j k = Ok v /\
                 count_findings (File n) (label fd) fs
                 = if (v =? compared (nep50 W) fd f p m)%float
                   then 0%nat else 1%nat) /\
      occurrences (label fd) (map snd fs)
      = List.length
          (filter (fun f => reported (nep50 W) fd f i j k p m) (files W)).
Proof.
  rewrite pass_refines.
  destruct (pass_findings W p) as [fs|e] eqn:P; cbn [bind]; [|discriminate].
  intros [= <-]. revert P. unfold pass_findings.
  destruct (read_profile W p) as [[[m [lon lat]] [theta salt]]|e] eqn:R;
    cbn [bind]; [|discriminate].
  destruct (resolve W lon lat (level p)) as [[[i j] k]|e] eqn:L;
    cbn [bind]; [|discriminate].
  destruct (theta_timeseries W i j k) as [theta_ts|e];
    cbn [bind]; [|discriminate].
  destruct (salt_timeseries W i j k) as [salt_ts|e];
    cbn [bind]; [|discriminate].
  destruct (Numpy.allclose theta theta_ts) as [c1|e];
    cbn [bind]; [|discriminate].
  destruct (Numpy.allclose salt salt_ts) as [c2|e];
    cbn [bind]; [|discriminate].
  destruct (files_findings (nep50 W) (files W) 0 i j k p m)
    as [static|e] eqn:F; cbn [bind]; [|discriminate].
  intros [= <-]. eexists. exists m, i, j, k.
  split; [reflexivity|]. split; [reflexivity|].
  split; [apply (read_profile_ok W p m lon lat theta salt R)|].
  split; [now rewrite (locate_of_read W p m lon lat theta salt R)|].
  intros fd Hfd. split.
  - intros n f Hf.
    destruct (files_findings_count (nep50 W) (files W) 0 i j k p m static F
                n f Hf) as [here [Hhere Hcount]].
    destruct (table_findings_count (nep50 W) static_fields f i j k p m here
                static_labels_distinct Hhere fd Hfd) as [v [Hv Hocc]].
    exists v. split; [exact Hv|].
    rewrite count_findings_app, count_findings_tagged.
    cbn [origin_eqb Nat.add] in Hcount |- *.
    now rewrite (Hcount (label fd)), Hocc.
  - rewrite map_app, map_snd_pair, !occurrences_app, !occurrences_flag.
    destruct (static_label_not_series fd Hfd) as [-> ->].
    rewrite !andb_false_r. cbn [Nat.add].
    exact (files_findings_total (nep50 W) (files W) 0 i j k p m static fd
             F Hfd).
Qed.

Lemma static_fields_checked_per_file_witness :
  exists fs m i j k,
    pass_findings Sample.W1 Sample.p_ok = Ok fs /\
    Some (unlines ["Checking profile id p_ok"; "ocean_depth mismatch";
                   "Profile ID: p_ok"]%string) = report Sample.p_ok fs /\
    find_meta Sample.W1 Sample.p_ok = Ok m /\
    locate Sample.W1 Sample.p_ok = Ok (i, j, k) /\
    forall fd, In fd static_fields ->
      (forall n f, nth_error (files Sample.W1) n = Some f ->
       exists v, reference fd f i j k = Ok v /\
                 count_findings (File n) (label fd) fs
                 = if (v =? compared (nep50 Sample.W1) fd f Sample.p_ok m)%float
                   then 0%nat else 1%nat) /\
      occurrences (label fd) (map snd fs)
      = List.length
          (filter (fun f => reported (nep50 Sample.W1) fd f i j k
                              Sample.p_ok m) (files Sample.W1)).
Proof.
  apply (static_fields_checked_per_file Sample.W1 Sample.p_ok).
  vm_compute. reflexivity.
Defined.

(** C7, against the claim as stated: the stored ocean depth is equal to
    the value in the 2013 temperature file and differs from the value in the
    2014 temperature file, which holds single precision; numpy rounds the
    stored double to single precision before comparing, and the pass has no
    finding at all. *)
Lemma single_precision_difference_unreported :
  index2 (values (Depth (theta13 Sample.W_mixed))) 1 2 = Ok Sample.deep_off /\
  index2 (values (Depth (theta14 Sample.W_mixed))) 1 2 = Ok 4000%float /\
  (Sample.deep_off =? ocean_depth Sample.deep_cell)%float = true /\
  (4000 =? ocean_depth Sample.deep_cell)%float = false /\
  pass_findings Sample.W_mixed Sample.p_deep = Ok [] /\
  validation_pass Sample.W_mixed Sample.p_deep = Ok None.
Proof. vm_compute. repeat split. Qed.

(** ** The printed block *)

Lemma render_lines (p : profile) (ws : list string) :
  render p ws
  = unlines (flat_map (fun w => [w; "Profile ID: " ++ _id p]%string) ws).
Proof.
  induction ws as [|w ws IH]; cbn [render flat_map unlines app].
  - reflexivity.
  - now rewrite IH, !append_assoc.
Qed.

Lemma header_line (p : profile) (rest : string) :
  (header p ++ rest)%string
  = (("Checking profile id " ++ _id p) ++ nl ++ rest)%string.
Proof. unfold header. cbn [append]. now rewrite !append_assoc. Qed.

(** C8, as the script has it: a pass without findings prints nothing; a
    pass with findings prints one block that starts with the line
    [Checking profile id <id>] and then has, for every finding in order, its
    mismatch line followed by a [Profile ID: <id>] line. *)
Theorem report_layout (W : world) (p : profile) (out : option string) :
  validation_pass W p = Ok out ->
  exists fs,
    pass_findings W p = Ok fs /\
    out = match fs with
          | [] => None
          | _ :: _ =>
              Some (unlines
                      (("Checking profile id " ++ _id p)%string
                       :: flat_map
                            (fun w => [w; "Profile ID: " ++ _id p]%string)
                            (map snd fs)))
          end.
Proof.
  rewrite pass_refines.
  destruct (pass_findings W p) as [fs|e]; cbn [bind]; [|discriminate].
  intros [= <-]. exists fs. split; [reflexivity|].
  destruct fs as [|x fs]; [reflexivity|].
  cbn [report unlines]. now rewrite render_lines, header_line.
Qed.

Lemma report_layout_witness :
  exists fs,
    pass_findings Sample.W0 Sample.p_theta = Ok fs /\
    Some (unlines ["Checking profile id p_theta"; "Theta mismatch";
                   "Profile ID: p_theta"]%string)
    = match fs with
      | [] => None
      | _ :: _ =>
          Some (unlines
                  (("Checking profile id " ++ _id Sample.p_theta)%string
                   :: flat_map
                        (fun w =>
                           [w; "Profile ID: " ++ _id Sample.p_theta]%string)
                        (map snd fs)))
      end.
Proof.
  apply (report_layout Sample.W0 Sample.p_theta).
  vm_compute. reflexivity.
Defined.

(** C8, against the claim as stated: with the temperature series as the
    only mismatch category the block has two lines after its first line,
    and with the cell area as the only one it has eight. *)
Lemma one_category_several_lines :
  pass_findings Sample.W0 Sample.p_theta = Ok [(Series, "Theta mismatch"%string)]
  /\ validation_pass Sample.W0 Sample.p_theta
     = Ok (Some (unlines ["Checking profile id p_theta"; "Theta mismatch";
                          "Profile ID: p_theta"]%string))
  /\ (exists text, validation_pass Sample.W0 Sample.p_area = Ok (Some text)
                   /\ line_count text = 9%nat).
Proof.
  split; [vm_compute; reflexivity|]. split; [vm_compute; reflexivity|].
  eexists. split; [vm_compute; reflexivity | vm_compute; reflexivity].
Qed.

(** ** Determinism *)

Lemma verdict_of_findings (W : world) (p : profile) :
  pass_verdict W p
  = match pass_findings W p with
    | Ok [] => Passes
    | Ok (_ :: _) => Fails
    | Raise e => Errors e
    end.
Proof.
  unfold pass_verdict. rewrite pass_refines.
  destruct (pass_findings W p) as [[|x fs]|e]; reflexivity.
Qed.

Lemma table_findings_same_data (weak : bool) (fields : list field)
  (f : dataset) (i j k : nat) (p1 p2 : profile) (m : meta) :
  (forall fd, In fd fields -> stored fd p1 m = stored fd p2 m) ->
  table_findings weak fields f i j k p1 m
  = table_findings weak fields f i j k p2 m.
Proof.
  induction fields as [|fd fields IH]; intros Hsame; cbn [table_findings].
  - reflexivity.
  - unfold compared. rewrite (Hsame fd (or_introl eq_refl)), IH;
      [reflexivity|].
    intros fd' Hin. apply Hsame. now right.
Qed.

Lemma stored_same_data (p1 p2 : profile) (m : meta) :
  same_data p1 p2 ->
  forall fd, In fd static_fields -> stored fd p1 m = stored fd p2 m.
Proof.
  intros (_ & _ & _ & _ & _ & Hz & Hfrac & Hmask & Hrho) fd Hin.
  cbn [static_fields In] in Hin.
  repeat (destruct Hin as [<-|Hin]; [cbn [stored]; congruence|]).
  destruct Hin.
Qed.

Lemma files_findings_same_data (weak : bool) (fs : list dataset)
  (n i j k : nat) (p1 p2 : profile) (m : meta) :
  same_data p1 p2 ->
  files_findings weak fs n i j k p1 m = files_findings weak fs n i j k p2 m.
Proof.
  intros Hsame. revert n.
  induction fs as [|f fs IH]; intros n; cbn [files_findings].
  - reflexivity.
  - rewrite (table_findings_same_data weak static_fields f i j k p1 p2 m
               (stored_same_data p1 p2 m Hsame)).
    now rewrite IH.
Qed.

Lemma read_profile_same_data (W : world) (p1 p2 : profile) :
  same_data p1 p2 -> read_profile W p1 = read_profile W p2.
Proof.
  intros (Hmeta & Hcoord & _ & Hinfo & Hdata & _).
  unfold read_profile, find_meta, variable_vector.
  now rewrite Hmeta, Hcoord, Hinfo, Hdata.
Qed.

Lemma pass_findings_same_data (W : world) (p1 p2 : profile) :
  same_data p1 p2 -> pass_findings W p1 = pass_findings W p2.
Proof.
  intros Hsame. unfold pass_findings.
  rewrite (read_profile_same_data W p1 p2 Hsame).
  destruct (read_profile W p2) as [[[m [lon lat]] [theta salt]]|e];
    cbn [bind]; [|reflexivity].
  destruct Hsame as (H1 & H2 & Hlevel & H3). rewrite Hlevel.
  destruct (resolve W lon lat (level p2)) as [[[i j] k]|e];
    cbn [bind]; [|reflexivity].
  now rewrite (files_findings_same_data (nep50 W) (files W) 0 i j k p1 p2 m
                 (conj H1 (conj H2 (conj Hlevel H3)))).
Qed.

(** *** The body and its namespace *)

Ltac ns_eval :=
  cbn [Ns.str Ns.int Ns.idx Ns.float Ns.floats Ns.profile Ns.meta Ns.dataset
       Ns.lookup Ns.assign String.eqb Ascii.eqb Bool.eqb andb bind].

Ltac ns_eval_in H :=
  cbn [Ns.str Ns.int Ns.idx Ns.float Ns.floats Ns.profile Ns.meta Ns.dataset
       Ns.lookup Ns.assign String.eqb Ascii.eqb Bool.eqb andb bind] in H.

Lemma append_log_spec (text log : string) (ns : namespace) :
  Ns.lookup "logmessage" ns = Ok (VStr log) ->
  append_log text ns
  = Ok (Ns.assign "logmessage" (VStr (log ++ text)) ns).
Proof. intros H. unfold append_log, Ns.str. now rewrite H. Qed.

Lemma branch_spec (c : bool) (what log : string) (p : profile)
  (ns : namespace) :
  Ns.lookup "logmessage" ns = Ok (VStr log) ->
  Ns.lookup "p" ns = Ok (VProfile p) ->
  exists ns',
    branch c what ns = Ok ns' /\
    Ns.lookup "logmessage" ns' = Ok (VStr (log_if c what p log)) /\
    same_but_log ns ns'.
Proof.
  intros Hlog Hp. unfold branch, log_if. destruct c.
  - rewrite (append_log_spec _ log ns Hlog). cbn [bind].
    unfold Ns.profile. ns_eval. rewrite Hp. cbn [bind].
    rewrite (append_log_spec _ (log ++ (what ++ nl))) by (ns_eval; reflexivity).
    eexists. split; [reflexivity|]. split; [ns_eval; reflexivity|].
    intros name Hname. unfold Ns.assign. cbn [Ns.lookup].
    now rewrite !Hname.
  - exists ns. split; [reflexivity|]. split; [exact Hlog|]. now intros name _.
Qed.

Lemma bound_after (ns ns' : namespace) (log log' : string) (p : profile)
  (m : meta) (i j k : nat) (loglen : Z) :
  bound ns log p m i j k loglen ->
  Ns.lookup "logmessage" ns' = Ok (VStr log') ->
  same_but_log ns ns' ->
  bound ns' log' p m i j k loglen.
Proof.
  intros (_ & Hp & Hm & Hi & Hj & Hk & Hl) Hlog Hsame.
  unfold bound. split; [exact Hlog|].
  repeat split; (rewrite Hsame; [assumption | reflexivity]).
Qed.

Lemma body_field_spec (W : world) (fd : field) (f : dataset) (ns : namespace)
  (log : string) (p : profile) (m : meta) (i j k : nat) (loglen : Z) :
  bound ns log p m i j k loglen ->
  Ns.lookup "f" ns = Ok (VDataset f) ->
  match reference fd f i j k with
  | Ok v =>
      exists ns',
        body_field W fd ns = Ok ns' /\
        Ns.lookup "logmessage" ns'
        = Ok (VStr (log_if (Py.ne v (compared (nep50 W) fd f p m))
                      (label fd) p log)) /\
        same_but_log ns ns'
  | Raise e => body_field W fd ns = Raise e
  end.
Proof.
  intros (Hlog & Hp & Hm & Hi & Hj & Hk & Hl) Hf.
  unfold body_field, Ns.dataset, Ns.idx, Ns.int, Ns.profile, Ns.meta.
  rewrite Hf, Hk, Hj, Hi. cbn [bind]. rewrite !Nat2Z.id.
  destruct (reference fd f i j k) as [v|e]; cbn [bind]; [|reflexivity].
  rewrite Hp, Hm. cbn [bind]. now apply branch_spec.
Qed.

Lemma body_fields_spec (W : world) (fields : list field) (f : dataset)
  (ns : namespace) (log : string) (p : profile) (m : meta) (i j k : nat)
  (loglen : Z) :
  bound ns log p m i j k loglen ->
  Ns.lookup "f" ns = Ok (VDataset f) ->
  match table_findings (nep50 W) fields f i j k p m with
  | Ok fs =>
      exists ns',
        body_fields W fields ns = Ok ns' /\
        bound ns' (log ++ render p fs) p m i j k loglen
  | Raise e => body_fields W fields ns = Raise e
  end.
Proof.
  revert ns log. induction fields as [|fd fields IH]; intros ns log Hb Hf;
    cbn [table_findings body_fields].
  - exists ns. split; [reflexivity|]. cbn [render].
    now rewrite append_empty_r.
  - pose proof (body_field_spec W fd f ns log p m i j k loglen Hb Hf) as Hfd.
    destruct (reference fd f i j k) as [v|e]; cbn [bind];
      [|now rewrite Hfd].
    destruct Hfd as (ns1 & -> & Hlog1 & Hsame). cbn [bind].
    assert (Ns.lookup "f" ns1 = Ok (VDataset f)) as Hf1
        by (rewrite Hsame; [exact Hf | reflexivity]).
    pose proof (IH ns1 _ (bound_after ns ns1 log _ p m i j k loglen Hb Hlog1
                            Hsame) Hf1) as Hrest.
    destruct (table_findings (nep50 W) fields f i j k p m) as [rest|e];
      cbn [bind]; [|exact Hrest].
    destruct Hrest as (ns2 & -> & Hb2). exists ns2. split; [reflexivity|].
    now rewrite log_if_render, render_app, <- append_assoc in *.
Qed.

Lemma bound_assign_f (ns : namespace) (f : dataset) (log : string)
  (p : profile) (m : meta) (i j k : nat) (loglen : Z) :
  bound ns log p m i j k loglen ->
  bound (Ns.assign "f" (VDataset f) ns) log p m i j k loglen.
Proof. unfold bound. ns_eval. auto. Qed.

Lemma body_files_spec (W : world) (fs : list dataset) (n : nat)
  (ns : namespace) (log : string) (p : profile) (m : meta) (i j k : nat)
  (loglen : Z) :
  bound ns log p m i j k loglen ->
  match files_findings (nep50 W) fs n i j k p m with
  | Ok r =>
      exists ns',
        body_files W fs ns = Ok ns' /\
        bound ns' (log ++ render p (map snd r)) p m i j k loglen
  | Raise e => body_files W fs ns = Raise e
  end.
Proof.
  revert n ns log. induction fs as [|f fs IH]; intros n ns log Hb;
    cbn [files_findings body_files].
  - exists ns. split; [reflexivity|]. cbn [map render].
    now rewrite append_empty_r.
  - pose proof (body_fields_spec W static_fields f _ log p m i j k loglen
                  (bound_assign_f ns f log p m i j k loglen Hb) eq_refl)
      as Hhere.
    destruct (table_findings (nep50 W) static_fields f i j k p m)
      as [here|e]; cbn [bind]; [|now rewrite Hhere].
    destruct Hhere as (ns1 & -> & Hb1). cbn [bind].
    pose proof (IH (S n) ns1 _ Hb1) as Hrest.
    destruct (files_findings (nep50 W) fs (S n) i j k p m) as [rest|e];
      cbn [bind]; [|exact Hrest].
    destruct Hrest as (ns2 & -> & Hb2). exists ns2. split; [reflexivity|].
    now rewrite map_app, map_snd_pair, render_app, <- append_assoc.
Qed.

Lemma ltb_of_nat (a b : nat) : (Z.of_nat a <? Z.of_nat b)%Z = (a <? b)%nat.
Proof.
  destruct (Z.ltb_spec (Z.of_nat a) (Z.of_nat b));
    destruct (Nat.ltb_spec a b); try reflexivity; lia.
Qed.

Lemma indices_bound (ns : namespace) (log : string) (p : profile) (m : meta)
  (i j k : nat) (loglen : Z) :
  bound ns log p m i j k loglen -> indices ns = Ok (i, j, k).
Proof.
  intros (_ & _ & _ & Hi & Hj & Hk & _).
  unfold indices, Ns.idx, Ns.int. rewrite Hi, Hj, Hk. cbn [bind].
  now rewrite !Nat2Z.id.
Qed.

(** The body computes [validation_pass], whatever the namespace held when
    the iteration began, and leaves the resolved indices bound. *)
Lemma loop_body_spec (W : world) (sample : profile) (ns : namespace) :
  match validation_pass W sample with
  | Ok out =>
      exists ns',
        loop_body W sample ns = Ok (ns', out) /\
        indices ns' = locate W sample
  | Raise e => loop_body W sample ns = Raise e
  end.
Proof.
  unfold validation_pass, loop_body, read_profile, body_read, locate,
    append_log, variable_vector.
  ns_eval.
  destruct (find_meta W sample) as [m|e]; ns_eval; [|reflexivity].
  destruct (Py.getitem (coordinates sample) 1) as [lat|e]; ns_eval;
    [|reflexivity].
  destruct (Py.getitem (coordinates sample) 0) as [lon|e]; ns_eval;
    [|reflexivity].
  destruct (Py.getitem (data_info sample) 0) as [names|e]; ns_eval;
    [|reflexivity].
  match goal with |- context [bind (bind ?c _) _] =>
    destruct c as [theta|e]; ns_eval; [|reflexivity] end.
  match goal with |- context [bind (bind ?c _) _] =>
    destruct c as [salt|e]; ns_eval; [|reflexivity] end.
  change ("" ++ (("Checking profile id " ++ _id sample) ++ nl))%string
    with (header sample).
  unfold body_locate, resolve. ns_eval.
  destruct (Py.index eqb (Py.mod360 lon) (longitudes W)) as [i|e]; ns_eval;
    [|reflexivity].
  destruct (Py.index eqb lat (latitudes W)) as [j|e]; ns_eval;
    [|reflexivity].
  destruct (Py.index eqb (-1 * level sample)%float (levels W)) as [k|e];
    ns_eval; [|reflexivity].
  unfold body_series. ns_eval. rewrite !Nat2Z.id.
  destruct (theta_timeseries W i j k) as [theta_ts|e]; ns_eval;
    [|reflexivity].
  destruct (salt_timeseries W i j k) as [salt_ts|e]; ns_eval;
    [|reflexivity].
  unfold check_series.
  destruct (Numpy.allclose theta theta_ts) as [c1|e]; ns_eval;
    [|reflexivity].
  destruct (Numpy.allclose salt salt_ts) as [c2|e] eqn:E5.
  2:{ destruct c1; cbn [negb]; unfold branch, append_log; ns_eval;
      rewrite E5; reflexivity. }
  cbn [bind].
  match goal with
  | |- context [bind (bind (branch _ _ ?start) ?rest) _] =>
      assert (exists ns2,
                bind (branch (negb c1) "Theta mismatch" start) rest = Ok ns2
                /\ bound ns2
                     (log_if (negb c2) "Salt mismatch" sample
                        (log_if (negb c1) "Theta mismatch" sample
                           (header sample)))
                     sample m i j k
                     (Z.of_nat (String.length (header sample))))
        as (ns2 & -> & Hb)
  end.
  { destruct c1, c2; cbn [negb];
      unfold branch, append_log, log_if, log_mismatch;
      ns_eval; rewrite ?E5; ns_eval;
      (eexists; split; [reflexivity|]); unfold bound; ns_eval;
      repeat split. }
  cbn [bind]. rewrite (check_files_refines W (files W) 0).
  pose proof (body_files_spec W (files W) 0 ns2 _ sample m i j k _ Hb)
    as Hfiles.
  destruct (files_findings (nep50 W) (files W) 0 i j k sample m) as [r|e];
    cbn [bind]; [|now rewrite Hfiles].
  destruct Hfiles as (ns3 & -> & Hb3). cbn [bind].
  exists ns3. split; [|exact (indices_bound _ _ _ _ _ _ _ _ Hb3)].
  destruct Hb3 as (Hlog & _ & _ & _ & _ & _ & Hlen).
  unfold Ns.str, Ns.int. rewrite Hlog, Hlen. cbn [bind].
  now rewrite ltb_of_nat.
Qed.

Lemma printed_by_body (W : world) (p : profile) (ns : namespace) :
  printed_by (loop_body W p ns) = validation_pass W p.
Proof.
  pose proof (loop_body_spec W p ns) as H.
  destruct (validation_pass W p) as [out|e].
  - destruct H as (ns' & -> & _). reflexivity.
  - now rewrite H.
Qed.

Lemma verdict_of_body (W : world) (p : profile) (ns : namespace) :
  verdict_of (loop_body W p ns) = pass_verdict W p.
Proof.
  pose proof (loop_body_spec W p ns) as H. unfold pass_verdict.
  destruct (validation_pass W p) as [out|e].
  - destruct H as (ns' & -> & _). reflexivity.
  - now rewrite H.
Qed.

Lemma loop_run (W : world) (ps : list profile) (ns : namespace) :
  loop W ps ns = run W ps.
Proof.
  revert ns. induction ps as [|p ps IH]; intros ns; cbn [loop run].
  - reflexivity.
  - pose proof (loop_body_spec W p ns) as H.
    destruct (validation_pass W p) as [out|e].
    + destruct H as (ns' & -> & _). now rewrite IH.
    + now rewrite H.
Qed.

(** C9: an iteration of the loop is a function of the profile it selects
    and of the reference data, not of what earlier iterations left behind.
    Two profiles with the same coordinates and level are resolved to the
    same grid indices, and those are the indices an iteration leaves bound;
    an iteration prints the same for the same profile whatever names and
    values the namespace held when it began; and two profiles with the same
    content, checked from any two namespaces against the same files and
    metadata, have the same findings and the same verdict. *)
Theorem pass_deterministic (W : world) (p1 p2 : profile)
  (ns1 ns2 : namespace) :
  coordinates p1 = coordinates p2 ->
  level p1 = level p2 ->
  locate W p1 = locate W p2 /\
  (forall ns' out,
     loop_body W p1 ns1 = Ok (ns', out) -> indices ns' = locate W p1) /\
  printed_by (loop_body W p1 ns1) = printed_by (loop_body W p1 ns2) /\
  (same_data p1 p2 ->
   pass_findings W p1 = pass_findings W p2 /\
   verdict_of (loop_body W p1 ns1) = verdict_of (loop_body W p2 ns2)).
Proof.
  intros Hcoord Hlevel. split; [|split; [|split]].
  - unfold locate. now rewrite Hcoord, Hlevel.
  - intros ns' out Hbody. pose proof (loop_body_spec W p1 ns1) as H.
    destruct (validation_pass W p1) as [out'|e].
    + destruct H as (ns'' & Hbody' & Hidx).
      rewrite Hbody in Hbody'. now injection Hbody' as -> _.
    + rewrite Hbody in H. discriminate.
  - now rewrite !printed_by_body.
  - intros Hsame. split; [now apply pass_findings_same_data|].
    now rewrite !verdict_of_body, !verdict_of_findings,
      (pass_findings_same_data W p1 p2 Hsame).
Qed.

Lemma pass_deterministic_witness :
  locate Sample.W1 Sample.p_ok = locate Sample.W1 Sample.p_twin /\
  (forall ns' out,
     loop_body Sample.W1 Sample.p_ok [] = Ok (ns', out) ->
     indices ns' = locate Sample.W1 Sample.p_ok) /\
  printed_by (loop_body Sample.W1 Sample.p_ok [])
  = printed_by (loop_body Sample.W1 Sample.p_ok Sample.leftover) /\
  pass_findings Sample.W1 Sample.p_ok = pass_findings Sample.W1 Sample.p_twin
  /\ verdict_of (loop_body Sample.W1 Sample.p_ok [])
     = verdict_of (loop_body Sample.W1 Sample.p_twin Sample.leftover).
Proof.
  destruct (pass_deterministic Sample.W1 Sample.p_ok Sample.p_twin []
              Sample.leftover eq_refl eq_refl)
    as (Hloc & Hidx & Hprint & Hsame).
  repeat (split; [assumption|]). apply Hsame. unfold same_data. repeat split.
Defined.

(** X15: what the loop prints and how it ends does not depend on the names
    left bound when it starts: the loop run statement by statement on a
    namespace gives the output and the ending of [run]. *)
Theorem loop_ignores_leftovers (W : world) (ps : list profile)
  (ns1 ns2 : namespace) :
  loop W ps ns1 = loop W ps ns2 /\ loop W ps ns1 = run W ps.
Proof. split; [now rewrite !loop_run | apply loop_run]. Qed.

(** ** Reference timeseries *)

Lemma point_series_values (a : array4) (k j i : nat) (vs : list float) :
  point_series a k j i = Ok vs <->
  Forall2 (fun slice v => index3 slice k j i = Ok v) a vs.
Proof.
  revert vs. induction a as [|slice a IH]; intros vs; cbn [point_series].
  - split; [intros [= <-]; constructor | intros H; now inversion H].
  - destruct (index3 slice k j i) as [v|e] eqn:E; cbn [bind].
    + destruct (point_series a k j i) as [rest|e] eqn:P; cbn [bind].
      * split.
        -- intros [= <-]. constructor; [exact E | now apply IH].
        -- intros H. inversion H as [|s v' a' vs' Hv Hrest]; subst.
           apply IH in Hrest. congruence.
      * split; [discriminate|]. intros H.
        inversion H as [|s v' a' vs' Hv Hrest]; subst.
        apply IH in Hrest. discriminate.
    + split; [discriminate|]. intros H.
      inversion H as [|s v' a' vs' Hv Hrest]; subst. congruence.
Qed.





(** ** Series comparison *)

Lemma isclose_refl (x : float) : Numpy.isclose x x = true.
Proof.
  unfold Numpy.isclose, is_nan.
  destruct (x =? x)%float; cbn [negb andb];
    [now rewrite orb_true_r | apply orb_true_r].
Qed.

Lemma broadcast_same_length (a b : list float) :
  List.length a = List.length b -> Numpy.broadcast a b = Ok (combine a b).
Proof.
  intros H. unfold Numpy.broadcast. now rewrite H, Nat.eqb_refl.
Qed.

Lemma combine_self_close (v : list float) :
  forallb (fun xy => Numpy.isclose (fst xy) (snd xy)) (combine v v) = true.
Proof.
  induction v as [|x v IH]; cbn [combine forallb fst snd]; [reflexivity|].
  now rewrite isclose_refl, IH.
Qed.

Lemma nth_error_combine (a b : list float) (i : nat) (x y : float) :
  nth_error a i = Some x -> nth_error b i = Some y -> In (x, y) (combine a b).
Proof.
  revert b i. induction a as [|x0 a IH]; intros [|y0 b] [|i];
    cbn [nth_error combine]; try discriminate.
  - intros [= ->] [= ->]. now left.
  - intros Ha Hb. right. now apply (IH b i).
Qed.

Lemma forallb_counterexample {A : Type} (f : A -> bool) (l : list A) (z : A) :
  In z l -> f z = false -> forallb f l = false.
Proof.
  intros Hin Hz. destruct (forallb f l) eqn:E; [|reflexivity].
  rewrite forallb_forall in E. rewrite (E z Hin) in Hz. discriminate.
Qed.

(** C6: a vector compared with itself is close, NaN entries included; and
    two vectors of equal length are not close as soon as one position holds
    a pair that differs, is not a pair of NaNs and is outside
    [atol + rtol * |reference|]. *)
Theorem allclose_equal_and_perturbed (v a b : list float) (i : nat)
  (x y : float) :
  List.length a = List.length b ->
  nth_error a i = Some x ->
  nth_error b i = Some y ->
  (x =? y)%float = false ->
  is_nan x && is_nan y = false ->
  Numpy.within_tol x y = false ->
  Numpy.allclose v v = Ok true /\ Numpy.allclose a b = Ok false.
Proof.
  intros Hlen Ha Hb Hne Hnan Htol. unfold Numpy.allclose. split.
  - rewrite (broadcast_same_length v v eq_refl). cbn [bind].
    now rewrite combine_self_close.
  - rewrite (broadcast_same_length a b Hlen). cbn [bind]. f_equal.
    apply (forallb_counterexample _ _ (x, y)).
    + now apply (nth_error_combine a b i).
    + cbn [fst snd]. unfold Numpy.isclose. now rewrite Htol, Hne, Hnan.
Qed.

Lemma allclose_equal_and_perturbed_witness :
  Numpy.allclose [nan; 1; infinity]%float [nan; 1; infinity]%float = Ok true /\
  Numpy.allclose [1; 2; 3; 5]%float Sample.theta_ok = Ok false.
Proof.
  apply (allclose_equal_and_perturbed [nan; 1; infinity]%float
           [1; 2; 3; 5]%float Sample.theta_ok 3 5 4);
    vm_compute; reflexivity.
Defined.

Lemma forallb_mapped {A B : Type} (f : B -> bool) (g : A -> B) (l : list A) :
  forallb f (map g l) = forallb (fun x => f (g x)) l.
Proof.
  induction l as [|x l IH]; cbn [map forallb]; [reflexivity | now rewrite IH].
Qed.

Lemma extract_absent (p : profile) (name : string) (names : list string)
  (others : list (list string)) :
  data_info p = names :: others -> ~ In name names -> extract p name = Ok [].
Proof.
  intros Hinfo Hnot. unfold extract, variable_vector, variable_idx, Py.index.
  rewrite Hinfo. cbn [Py.getitem nth_error bind].
  replace (Py.find_index String.eqb name names) with (@None nat).
  - reflexivity.
  - symmetry. apply find_index_absent. intros y Hy.
    apply String.eqb_neq. intros ->. contradiction.
Qed.

(** What [numpy.allclose] does with the lengths: it pairs the two
    sequences position by position when their lengths agree, stretches a
    sequence of length one over the other, and raises [ValueError] for any
    other pair of lengths.  So the empty vector of an absent variable passes
    against an empty reference and against a reference of length one, and
    raises against a longer one. *)
Theorem allclose_by_length (p : profile) (name : string)
  (names : list string) (others : list (list string))
  (a b : list float) :
  data_info p = names :: others ->
  ~ In name names ->
  extract p name = Ok [] /\
  Numpy.allclose [] [] = Ok true /\
  Numpy.allclose [] b
  = (if (List.length b <=? 1)%nat then Ok true else Raise ValueError) /\
  Numpy.allclose a b
  = (if (List.length a =? List.length b)%nat
     then Ok (forallb (fun xy => Numpy.isclose (fst xy) (snd xy))
                (combine a b))
     else if (List.length a =? 1)%nat
     then Ok (forallb (fun y => Numpy.isclose (hd 0%float a) y) b)
     else if (List.length b =? 1)%nat
     then Ok (forallb (fun x => Numpy.isclose x (hd 0%float b)) a)
     else Raise ValueError).
Proof.
  intros Hinfo Hnot.
  split; [exact (extract_absent p name names others Hinfo Hnot)|].
  split; [reflexivity|]. split.
  - destruct b as [|y [|y' b]]; reflexivity.
  - unfold Numpy.allclose, Numpy.broadcast.
    destruct (List.length a =? List.length b)%nat; [reflexivity|].
    destruct a as [|x [|x' a]]; cbn [List.length Nat.eqb hd bind].
    + destruct b as [|y [|y' b]]; reflexivity.
    + now rewrite forallb_mapped.
    + destruct b as [|y [|y' b]]; cbn [List.length Nat.eqb hd bind];
        try reflexivity.
      now rewrite forallb_mapped.
Qed.

Lemma allclose_by_length_witness :
  extract Sample.p_no_theta "THETA" = Ok [] /\
  Numpy.allclose [] [] = Ok true /\
  Numpy.allclose [] Sample.theta_ok = Raise ValueError /\
  Numpy.allclose [1%float] Sample.theta_ok = Ok false.
Proof.
  apply (allclose_by_length Sample.p_no_theta "THETA" ["SALT"%string] []
           [1%float] Sample.theta_ok).
  - reflexivity.
  - cbn [In]. intros [H|[]]. discriminate.
Defined.

(** C3, where the script departs from it: sequences of unequal length
    should compare as a mismatch, but an empty observed vector against a
    longer reference raises [ValueError] (so the pass of a profile without
    THETA raises), against a reference of length one it passes, and a single
    value compared with a longer constant reference passes too. *)
Lemma unequal_lengths_raise_or_pass :
  Numpy.allclose [] Sample.theta_ok = Raise ValueError /\
  Numpy.allclose [] [1%float] = Ok true /\
  Numpy.allclose [1%float] [1; 1; 1]%float = Ok true /\
  validation_pass Sample.W0 Sample.p_no_theta = Raise ValueError.
Proof. vm_compute. repeat split. Qed.

(** * Further properties of the script *)

(** ** Reading the profile *)

(** X1: a profile whose metadata key has no document in the metadata
    collection makes the pass raise [IndexError] before anything is
    compared, and the loop ends there. *)
Theorem missing_metadata_ends_run (W : world) (p : profile)
  (rest : list profile) (key : string) (keys : list string) :
  metadata p = key :: keys ->
  (forall m, In m (timeseriesMeta W) -> meta_id m <> key) ->
  validation_pass W p = Raise IndexError /\
  run W (p :: rest) = ([], Crashed IndexError).
Proof.
  intros Hkey Hnone.
  assert (find_meta W p = Raise IndexError) as Hfind.
  { unfold find_meta. rewrite Hkey. cbn [Py.getitem nth_error bind].
    replace (filter (fun m => String.eqb (meta_id m) key) (timeseriesMeta W))
      with (@nil meta); [reflexivity|].
    symmetry. induction (timeseriesMeta W) as [|m ms IH]; [reflexivity|].
    cbn [filter]. destruct (String.eqb_spec (meta_id m) key) as [E|_].
    - exfalso. apply (Hnone m); [now left | exact E].
    - apply IH. intros m' Hin. apply Hnone. now right. }
  assert (validation_pass W p = Raise IndexError) as Hpass.
  { unfold validation_pass, read_profile. now rewrite Hfind. }
  split; [exact Hpass | now apply run_raise].
Qed.

Lemma missing_metadata_ends_run_witness :
  validation_pass Sample.W0
    (Sample.make "p_lost" "m9" 359.5 ["THETA"; "SALT"]%string
       [Sample.theta_ok; Sample.salt_ok]) = Raise IndexError /\
  run Sample.W0
    [Sample.make "p_lost" "m9" 359.5 ["THETA"; "SALT"]%string
       [Sample.theta_ok; Sample.salt_ok]; Sample.p_theta]
  = ([], Crashed IndexError).
Proof.
  apply (missing_metadata_ends_run Sample.W0 _ [Sample.p_theta] "m9" []).
  - reflexivity.
  - intros m Hin. vm_compute in Hin.
    destruct Hin as [<-|[<-|[<-|[]]]]; discriminate.
Defined.

(** X2: when the first occurrence of a variable name sits at a position
    for which the profile has no data vector, reading that variable raises
    [IndexError]: the name list and the data list are trusted to line up. *)
Theorem misaligned_names_raise (p : profile) (name : string)
  (pre post : list string) (others : list (list string)) :
  data_info p = (pre ++ name :: post) :: others ->
  ~ In name pre ->
  (List.length (data p) <= List.length pre)%nat ->
  extract p name = Raise IndexError.
Proof.
  intros Hinfo Hnot Hshort.
  unfold extract, variable_vector, variable_idx, Py.index.
  rewrite Hinfo. cbn [Py.getitem nth_error bind].
  rewrite (find_index_skip name pre post Hnot).
  destruct (Z.gtb_spec (Z.of_nat (List.length pre)) (-1)); [|lia].
  rewrite getitem_int_nat. unfold Py.getitem.
  now rewrite (proj2 (nth_error_None (data p) (List.length pre)) Hshort).
Qed.

Lemma misaligned_names_raise_witness :
  extract (Sample.make "p_short" "m1" 359.5 ["SALT"; "THETA"]%string
             [Sample.salt_ok]) "THETA" = Raise IndexError.
Proof.
  apply (misaligned_names_raise _ "THETA" ["SALT"%string] [] []).
  - reflexivity.
  - cbn [In]. intros [H|[]]. discriminate.
  - cbn. lia.
Defined.

(** ** Coordinate lookup *)

(** X3: [resolve] can only fail with [ValueError], and it fails exactly
    when the longitude modulo 360, the latitude or the negated level has no
    equal entry in its axis. *)
Theorem resolve_fails_iff_absent (W : world) (lon lat level : float)
  (e : exn) :
  resolve W lon lat level = Raise e <->
  e = ValueError /\
  ((forall x, In x (longitudes W) -> (x =? Py.mod360 lon)%float = false) \/
   (forall y, In y (latitudes W) -> (y =? lat)%float = false) \/
   (forall z, In z (levels W) -> (z =? -1 * level)%float = false)).
Proof.
  split.
  - apply resolve_raises.
  - intros [-> Habsent]. now apply resolve_absent.
Qed.

Lemma resolve_fails_iff_absent_witness :
  resolve Sample.W0 0.5 (-60.25) 7 = Raise ValueError.
Proof.
  apply (proj2 (resolve_fails_iff_absent Sample.W0 0.5 (-60.25) 7 ValueError)).
  split; [reflexivity|]. right; right. intros z Hz. vm_compute in Hz.
  destruct Hz as [<-|[<-|[]]]; vm_compute; reflexivity.
Defined.

(** ** The loop *)

Lemma run_through (W : world) (ps rest : list profile) :
  Forall (completes W) ps ->
  run W (ps ++ rest)
  = (printed W ps ++ fst (run W rest), snd (run W rest)).
Proof.
  induction 1 as [|p ps [out Hp] Hps IH]; cbn [app printed flat_map].
  - now destruct (run W rest).
  - cbn [run]. rewrite Hp, IH. fold (printed W ps).
    destruct out; reflexivity.
Qed.

(** X4: as long as the passes complete, the loop prints their reports in
    the order of selection and goes on: a run over [ps ++ rest] prints what
    the passes of [ps] print, followed by the run over [rest]. *)
Theorem run_continues_after_completed_passes (W : world)
  (ps rest : list profile) :
  Forall (completes W) ps ->
  run W (ps ++ rest)
  = (printed W ps ++ fst (run W rest), snd (run W rest)).
Proof. exact (run_through W ps rest). Qed.

Lemma run_continues_after_completed_passes_witness :
  run Sample.W0 ([Sample.p_ok; Sample.p_theta] ++ [Sample.p_off_grid])
  = (printed Sample.W0 [Sample.p_ok; Sample.p_theta]
     ++ fst (run Sample.W0 [Sample.p_off_grid]),
     snd (run Sample.W0 [Sample.p_off_grid])).
Proof.
  apply (run_continues_after_completed_passes Sample.W0
           [Sample.p_ok; Sample.p_theta] [Sample.p_off_grid]).
  repeat constructor; eexists; vm_compute; reflexivity.
Defined.

(** X5: the loop stops at the first pass that raises: the run ends with
    that exception, its output is what the earlier passes printed, and the
    profiles selected afterwards play no part. *)
Theorem run_stops_at_first_exception (W : world) (ps rest : list profile)
  (p : profile) (e : exn) :
  Forall (completes W) ps ->
  validation_pass W p = Raise e ->
  run W (ps ++ p :: rest) = (printed W ps, Crashed e).
Proof.
  intros Hps Hp. rewrite (run_through W ps _ Hps).
  rewrite (run_raise W p rest e Hp). cbn [fst snd]. now rewrite app_nil_r.
Qed.

Lemma run_stops_at_first_exception_witness :
  run Sample.W0 ([Sample.p_theta] ++ Sample.p_no_theta :: [Sample.p_area])
  = (printed Sample.W0 [Sample.p_theta], Crashed ValueError).
Proof.
  apply (run_stops_at_first_exception Sample.W0 [Sample.p_theta]
           [Sample.p_area] Sample.p_no_theta ValueError).
  - repeat constructor. eexists. vm_compute. reflexivity.
  - vm_compute. reflexivity.
Defined.

(** ** What a report means *)

Lemma pass_findings_steps (W : world) (p : profile) (fs : list finding) :
  pass_findings W p = Ok fs ->
  exists m lon lat theta salt i j k theta_ts salt_ts c1 c2 static,
    read_profile W p = Ok (m, (lon, lat), (theta, salt)) /\
    resolve W lon lat (level p) = Ok (i, j, k) /\
    theta_timeseries W i j k = Ok theta_ts /\
    salt_timeseries W i j k = Ok salt_ts /\
    Numpy.allclose theta theta_ts = Ok c1 /\
    Numpy.allclose salt salt_ts = Ok c2 /\
    files_findings (nep50 W) (files W) 0 i j k p m = Ok static /\
    fs = map (pair Series)
           (flag (negb c1) "Theta mismatch" ++ flag (negb c2) "Salt mismatch")
         ++ static.
Proof.
  unfold pass_findings.
  destruct (read_profile W p) as [[[m [lon lat]] [theta salt]]|e] eqn:E0;
    cbn [bind]; [|discriminate].
  destruct (resolve W lon lat (level p)) as [[[i j] k]|e] eqn:E1;
    cbn [bind]; [|discriminate].
  destruct (theta_timeseries W i j k) as [theta_ts|e] eqn:E2;
    cbn [bind]; [|discriminate].
  destruct (salt_timeseries W i j k) as [salt_ts|e] eqn:E3;
    cbn [bind]; [|discriminate].
  destruct (Numpy.allclose theta theta_ts) as [c1|e] eqn:E4;
    cbn [bind]; [|discriminate].
  destruct (Numpy.allclose salt salt_ts) as [c2|e] eqn:E5;
    cbn [bind]; [|discriminate].
  destruct (files_findings (nep50 W) (files W) 0 i j k p m) as [static|e] eqn:E6;
    cbn [bind]; [|discriminate].
  intros [= <-].
  exists m, lon, lat, theta, salt, i, j, k, theta_ts, salt_ts, c1, c2, static.
  repeat (split; [assumption || reflexivity|]). reflexivity.
Qed.

Lemma table_findings_none (weak : bool) (fields : list field) (f : dataset) (i j k : nat)
  (p : profile) (m : meta) :
  (forall fd, In fd fields ->
   exists v, reference fd f i j k = Ok v /\ (v =? compared weak fd f p m)%float = true) ->
  table_findings weak fields f i j k p m = Ok [].
Proof.
  induction fields as [|fd fields IH]; intros Hall; cbn [table_findings].
  - reflexivity.
  - destruct (Hall fd (or_introl eq_refl)) as [v [Hv Heq]].
    rewrite Hv, IH by (intros fd' Hin; apply Hall; now right).
    cbn [bind]. unfold Py.ne. now rewrite Heq.
Qed.

Lemma files_findings_none (weak : bool) (fs : list dataset) (n i j k : nat) (p : profile)
  (m : meta) :
  (forall f fd, In f fs -> In fd static_fields ->
   exists v, reference fd f i j k = Ok v /\ (v =? compared weak fd f p m)%float = true) ->
  files_findings weak fs n i j k p m = Ok [].
Proof.
  revert n. induction fs as [|f fs IH]; intros n Hall; cbn [files_findings].
  - reflexivity.
  - rewrite (table_findings_none weak static_fields f i j k p m)
      by (intros fd Hfd; apply Hall; [now left | exact Hfd]).
    rewrite IH by (intros f' fd Hf Hfd; apply Hall; [now right | exact Hfd]).
    reflexivity.
Qed.

Lemma flag_nil (c : bool) (what : string) : flag c what = [] -> c = false.
Proof. destruct c; [discriminate | reflexivity]. Qed.

(** *** Equality of doubles and conversion to the dtype of an array *)

Lemma eqb_true_cases (v s : float) :
  (v =? s)%float = true ->
  v = s \/
  exists b b', Prim2SF v = S754_zero b /\ Prim2SF s = S754_zero b'.
Proof.
  rewrite FloatAxioms.eqb_spec. unfold SFeqb.
  destruct (Prim2SF v) as [b| b| |b mv ev] eqn:Ev;
    destruct (Prim2SF s) as [b'| b'| |b' ms es] eqn:Es;
    cbn [SFcompare]; try discriminate;
    try (destruct b; discriminate); try (destruct b'; discriminate).
  - intros _. right. now exists b, b'.
  - destruct b, b'; try discriminate; intros _; left;
      apply Prim2SF_inj; congruence.
  - intros H. assert (b = b' /\ ev = es /\ mv = ms) as (-> & -> & ->).
    { destruct b, b'; try discriminate;
        destruct (Z.compare_spec ev es) as [->| |]; try discriminate;
        destruct (Pos.compare_cont Eq mv ms) eqn:C; try discriminate;
        apply Pos.compare_eq in C; auto. }
    left. apply Prim2SF_inj. congruence.
Qed.

Lemma cast32_zero (s : float) (b : bool) :
  Prim2SF s = S754_zero b -> Numpy.cast32 s = s.
Proof. intros H. unfold Numpy.cast32. now rewrite H. Qed.

(** A double equal to a cell of an array stays equal to it when numpy
    converts it to the dtype of the array. *)
Lemma weak_operand_keeps_equal (weak : bool) (d : Numpy.dtype) (v s : float) :
  Numpy.typed d v ->
  (v =? s)%float = true ->
  (v =? Numpy.weak_operand weak d s)%float = true.
Proof.
  intros Htyped Heq. unfold Numpy.weak_operand.
  destruct weak; [|exact Heq]. destruct d; [|exact Heq].
  cbn [Numpy.astype]. unfold Numpy.typed in Htyped. cbn [Numpy.astype] in Htyped.
  destruct (eqb_true_cases v s Heq) as [<-|[b [b' [_ Hs]]]].
  - now rewrite Htyped.
  - now rewrite (cast32_zero s b' Hs).
Qed.

Lemma getitem_in {A : Type} (l : list A) (i : nat) (v : A) :
  Py.getitem l i = Ok v -> In v l.
Proof.
  unfold Py.getitem. destruct (nth_error l i) as [x|] eqn:E; [|discriminate].
  intros [= <-]. exact (nth_error_In l i E).
Qed.

Lemma index2_in (a : array2) (j i : nat) (v : float) :
  index2 a j i = Ok v -> In v (cells2 a).
Proof.
  unfold index2, cells2.
  destruct (Py.getitem a j) as [row|e] eqn:E; cbn [bind]; [|discriminate].
  intros H. apply in_concat. exists row.
  split; [exact (getitem_in a j row E) | exact (getitem_in row i v H)].
Qed.

Lemma index3_in (a : array3) (k j i : nat) (v : float) :
  index3 a k j i = Ok v -> In v (cells3 a).
Proof.
  unfold index3, cells3.
  destruct (Py.getitem a k) as [plane|e] eqn:E; cbn [bind]; [|discriminate].
  intros H. apply in_concat. exists (cells2 plane).
  split; [apply in_map; exact (getitem_in a k plane E) | exact (index2_in plane j i v H)].
Qed.

Lemma cell_typed {A : Type} {cells : A -> list float} (a : ndarray A cells)
  (v : float) :
  In v (cells (values a)) -> Numpy.typed (dtype_of a) v.
Proof.
  intros Hin. exact (proj1 (Forall_forall _ _) (values_typed a) v Hin).
Qed.

(** What a static read returns is a value of the dtype of the array. *)
Lemma static_read_typed (fd : field) (f : dataset) (i j k : nat) (v : float) :
  In fd static_fields ->
  reference fd f i j k = Ok v ->
  Numpy.typed (field_dtype fd f) v.
Proof.
  cbn [static_fields In]. intros Hin.
  repeat (destruct Hin as [<-|Hin];
          [cbn [reference field_dtype]; intros H; apply cell_typed;
           first [exact (index2_in _ _ _ _ H) | exact (index3_in _ _ _ _ _ H)
                 | exact (getitem_in _ _ _ H)]|]).
  destruct Hin.
Qed.

Lemma static_match_agrees (W : world) (p : profile) (m : meta) (i j k : nat) :
  static_match W p m i j k -> static_agree W p m i j k.
Proof.
  intros Hmatch f fd Hf Hfd.
  destruct (Hmatch f fd Hf Hfd) as [v [Hv Heq]].
  exists v. split; [exact Hv|]. unfold compared.
  apply weak_operand_keeps_equal; [|exact Heq].
  exact (static_read_typed fd f i j k v Hfd Hv).
Qed.

(** X6: silence is earned.  When a pass completes without printing, the
    profile was read, its cell was found, both stored vectors are
    [allclose] to the reference timeseries, and every static field of every
    file of the loop is equal to the stored value as numpy compares the
    two, the stored value converted to the dtype of the array where numpy
    does so. *)
Theorem silent_pass_means_match (W : world) (p : profile) :
  validation_pass W p = Ok None ->
  exists m lon lat theta salt i j k theta_ts salt_ts,
    read_profile W p = Ok (m, (lon, lat), (theta, salt)) /\
    resolve W lon lat (level p) = Ok (i, j, k) /\
    theta_timeseries W i j k = Ok theta_ts /\
    salt_timeseries W i j k = Ok salt_ts /\
    Numpy.allclose theta theta_ts = Ok true /\
    Numpy.allclose salt salt_ts = Ok true /\
    static_agree W p m i j k.
Proof.
  rewrite pass_refines.
  destruct (pass_findings W p) as [fs|e] eqn:P; cbn [bind]; [|discriminate].
  destruct fs as [|x fs]; [|discriminate]. intros _.
  destruct (pass_findings_steps W p [] P)
    as (m & lon & lat & theta & salt & i & j & k & theta_ts & salt_ts
        & c1 & c2 & static & Hread & Hres & Hth & Hsa & Hc1 & Hc2 & Hst & Hfs).
  symmetry in Hfs. apply app_eq_nil in Hfs. destruct Hfs as [Hser ->].
  apply map_eq_nil in Hser. apply app_eq_nil in Hser.
  destruct Hser as [H1 H2]. apply flag_nil in H1, H2.
  apply negb_false_iff in H1, H2. subst c1 c2.
  exists m, lon, lat, theta, salt, i, j, k, theta_ts, salt_ts.
  repeat (split; [assumption|]).
  intros f fd Hf Hfd. apply In_nth_error in Hf. destruct Hf as [n Hn].
  destruct (files_findings_count (nep50 W) (files W) 0 i j k p m [] Hst n f Hn)
    as [here [Hhere Hcount]].
  destruct (table_findings_count (nep50 W) static_fields f i j k p m here
              static_labels_distinct Hhere fd Hfd) as [v [Hv Hocc]].
  exists v. split; [exact Hv|].
  rewrite <- (Hcount (label fd)) in Hocc. cbn in Hocc.
  destruct (v =? compared (nep50 W) fd f p m)%float;
    [reflexivity | discriminate].
Qed.

Lemma silent_pass_means_match_witness :
  exists m lon lat theta salt i j k theta_ts salt_ts,
    read_profile Sample.W32 Sample.p_area = Ok (m, (lon, lat), (theta, salt)) /\
    resolve Sample.W32 lon lat (level Sample.p_area) = Ok (i, j, k) /\
    theta_timeseries Sample.W32 i j k = Ok theta_ts /\
    salt_timeseries Sample.W32 i j k = Ok salt_ts /\
    Numpy.allclose theta theta_ts = Ok true /\
    Numpy.allclose salt salt_ts = Ok true /\
    static_agree Sample.W32 Sample.p_area m i j k.
Proof.
  apply (silent_pass_means_match Sample.W32 Sample.p_area).
  vm_compute. reflexivity.
Defined.

(** X7: and a match is silent.  When the profile is read, its cell is
    found, both stored vectors are [allclose] to the reference timeseries
    and every static field of every file is equal to the stored value, the
    pass completes and prints nothing. *)
Theorem matching_profile_is_silent (W : world) (p : profile) (m : meta)
  (lon lat : float) (theta salt theta_ts salt_ts : list float)
  (i j k : nat) :
  read_profile W p = Ok (m, (lon, lat), (theta, salt)) ->
  resolve W lon lat (level p) = Ok (i, j, k) ->
  theta_timeseries W i j k = Ok theta_ts ->
  salt_timeseries W i j k = Ok salt_ts ->
  Numpy.allclose theta theta_ts = Ok true ->
  Numpy.allclose salt salt_ts = Ok true ->
  static_match W p m i j k ->
  validation_pass W p = Ok None.
Proof.
  intros Hread Hres Hth Hsa Hc1 Hc2 Hst.
  rewrite pass_refines. unfold pass_findings.
  rewrite Hread. cbn [bind]. rewrite Hres. cbn [bind].
  rewrite Hth, Hsa. cbn [bind]. rewrite Hc1, Hc2. cbn [bind].
  rewrite (files_findings_none (nep50 W) (files W) 0 i j k p m
             (static_match_agrees W p m i j k Hst)).
  reflexivity.
Qed.

Lemma matching_profile_is_silent_witness :
  validation_pass Sample.W0 Sample.p_twice = Ok None.
Proof.
  apply (matching_profile_is_silent Sample.W0 Sample.p_twice
           (Sample.cell "m1" 100) 359.5 (-60.25) Sample.theta_ok
           Sample.salt_ok Sample.theta_ok Sample.salt_ok 2 1 1);
    try (vm_compute; reflexivity).
  intros f fd Hf Hfd. vm_compute in Hf.
  cbn [static_fields In] in Hfd.
  destruct Hf as [<-|[<-|[<-|[<-|[]]]]];
    repeat (destruct Hfd as [<-|Hfd];
            [eexists; split; vm_compute; reflexivity|]);
    destruct Hfd.
Defined.



Lemma table_findings_short (weak : bool) (fields : list field) (f : dataset) (i j k : nat)
  (p : profile) (m : meta) (fs : list string) :
  table_findings weak fields f i j k p m = Ok fs ->
  (List.length fs <= List.length fields)%nat.
Proof.
  revert fs. induction fields as [|fd fields IH]; intros fs;
    cbn [table_findings].
  - intros [= <-]. cbn. lia.
  - destruct (reference fd f i j k) as [v|e]; cbn [bind]; [|discriminate].
    destruct (table_findings weak fields f i j k p m) as [rest|e];
      cbn [bind]; [|discriminate].
    intros [= <-]. rewrite length_app. specialize (IH rest eq_refl).
    unfold flag. destruct (Py.ne v (compared weak fd f p m)); cbn [List.length]; lia.
Qed.

Lemma files_findings_members (weak : bool) (fs : list dataset) (n0 i j k : nat)
  (p : profile) (m : meta) (r : list finding) :
  files_findings weak fs n0 i j k p m = Ok r ->
  (List.length r <= List.length static_fields * List.length fs)%nat /\
  forall o w, In (o, w) r ->
  exists n, o = File n /\ (n0 <= n < n0 + List.length fs)%nat /\
            In w (map label static_fields).
Proof.
  revert n0 r. induction fs as [|f fs IH]; intros n0 r; cbn [files_findings].
  - intros [= <-]. split; [cbn; lia | intros o w []].
  - destruct (table_findings weak static_fields f i j k p m) as [here|e] eqn:T;
      cbn [bind]; [|discriminate].
    destruct (files_findings weak fs (S n0) i j k p m) as [rest|e] eqn:F;
      cbn [bind]; [|discriminate].
    intros [= <-]. destruct (IH (S n0) rest F) as [Hlen Hin]. split.
    + rewrite length_app, length_map.
      pose proof (table_findings_short weak static_fields f i j k p m here T).
      change (List.length (f :: fs)) with (S (List.length fs)).
      rewrite Nat.mul_succ_r. unfold finding in *. lia.
    + intros o w Hw. apply in_app_or in Hw. destruct Hw as [Hw|Hw].
      * apply in_map_iff in Hw. destruct Hw as [w' [[= <- <-] Hw']].
        exists n0. split; [reflexivity|]. split; [cbn [List.length]; lia|].
        exact (table_findings_labels weak static_fields f i j k p m here T _ Hw').
      * destruct (Hin o w Hw) as [n [-> [Hn Hl]]].
        exists n. split; [reflexivity|]. split; [cbn [List.length]; lia|].
        exact Hl.
Qed.

(** X9: a report never holds anything but the eleven mismatch lines of the
    script.  The findings of a pass that completes number at most 38; one
    from the timeseries comparisons is the temperature or the salinity
    line, and one from the static loop comes from one of the four files and
    carries the line of one of the nine static fields. *)
Theorem findings_are_known_lines (W : world) (p : profile)
  (fs : list finding) :
  pass_findings W p = Ok fs ->
  (List.length fs <= 38)%nat /\
  forall o w, In (o, w) fs ->
    In w mismatch_lines /\
    match o with
    | Series => w = "Theta mismatch"%string \/ w = "Salt mismatch"%string
    | File n => (n < 4)%nat /\ In w (map label static_fields)
    end.
Proof.
  intros P.
  destruct (pass_findings_steps W p fs P)
    as (m & lon & lat & theta & salt & i & j & k & theta_ts & salt_ts
        & c1 & c2 & static & _ & _ & _ & _ & _ & _ & Hst & ->).
  destruct (files_findings_members (nep50 W) (files W) 0 i j k p m static Hst)
    as [Hlen Hin].
  split.
  - rewrite length_app, length_map, length_app.
    cbn [files List.length static_fields] in Hlen. unfold finding in *.
    unfold flag. destruct c1, c2; cbn [negb List.length]; lia.
  - intros o w Hw. apply in_app_or in Hw. destruct Hw as [Hw|Hw].
    + apply in_map_iff in Hw. destruct Hw as [w' [[= <- <-] Hw']].
      apply in_app_or in Hw'. unfold flag in Hw'.
      destruct Hw' as [Hw'|Hw']; [destruct (negb c1) | destruct (negb c2)];
        try (now destruct Hw');
        destruct Hw' as [<-|[]]; (split; [cbn; tauto | tauto]).
    + destruct (Hin o w Hw) as [n [-> [Hn Hl]]].
      split; [right; right; exact Hl|].
      split; [cbn [files List.length] in Hn; lia | exact Hl].
Qed.

Lemma findings_are_known_lines_witness :
  (List.length
     [(File 0, "Cell area mismatch"); (File 1, "Cell area mismatch");
      (File 2, "Cell area mismatch"); (File 3, "Cell area mismatch")]%string
   <= 38)%nat /\
  forall o w,
    In (o, w)
      [(File 0, "Cell area mismatch"); (File 1, "Cell area mismatch");
       (File 2, "Cell area mismatch"); (File 3, "Cell area mismatch")]%string ->
    In w mismatch_lines /\
    match o with
    | Series => w = "Theta mismatch"%string \/ w = "Salt mismatch"%string
    | File n => (n < 4)%nat /\ In w (map label static_fields)
    end.
Proof.
  apply (findings_are_known_lines Sample.W0 Sample.p_area).
  vm_compute. reflexivity.
Defined.

(** ** Reference timeseries, position by position *)

(** X10: the reference timeseries has one value per time step, those of
    the 2013 file first: when the two files hold the variable as [a13] and
    [a14] and the extraction succeeds, the timeseries has as many values as
    [a13] and [a14] have time steps together, and its [t]-th value is the
    cell (levelidx, latidx, lonidx) of the [t]-th time step of
    [a13 ++ a14]. *)
Theorem timeseries_one_value_per_step (name : string) (f13 f14 : dataset)
  (a13 a14 : array4) (lonidx latidx levelidx : nat) (ts : list float) :
  variable f13 name = Ok a13 ->
  variable f14 name = Ok a14 ->
  timeseries name f13 f14 lonidx latidx levelidx = Ok ts ->
  List.length ts = (List.length a13 + List.length a14)%nat /\
  Forall2 (fun slice v => index3 slice levelidx latidx lonidx = Ok v)
    (a13 ++ a14) ts.
Proof.
  intros H13 H14. unfold timeseries. rewrite H13. cbn [bind].
  destruct (point_series a13 levelidx latidx lonidx) as [s13|e] eqn:P13;
    cbn [bind]; [|discriminate].
  rewrite H14. cbn [bind].
  destruct (point_series a14 levelidx latidx lonidx) as [s14|e] eqn:P14;
    cbn [bind]; [|discriminate].
  intros [= <-]. apply point_series_values in P13, P14.
  split.
  - rewrite length_app.
    now rewrite <- (Forall2_length P13), <- (Forall2_length P14).
  - now apply Forall2_app.
Qed.

Lemma timeseries_one_value_per_step_witness :
  List.length Sample.theta_ok
  = (List.length (map Sample.cube [1; 2]%float)
     + List.length (map Sample.cube [3; 4]%float))%nat /\
  Forall2 (fun slice v => index3 slice 1 1 2 = Ok v)
    (map Sample.cube [1; 2]%float ++ map Sample.cube [3; 4]%float)
    Sample.theta_ok.
Proof.
  apply (timeseries_one_value_per_step "THETA" (theta13 Sample.W0)
           (theta14 Sample.W0) (map Sample.cube [1; 2]%float)
           (map Sample.cube [3; 4]%float) 2 1 1 Sample.theta_ok);
    vm_compute; reflexivity.
Defined.

(** ** Not-a-number values *)

Lemma nan_spec (x : float) : is_nan x = true -> Prim2SF x = S754_nan.
Proof. intros H. unfold Prim2SF. now rewrite H. Qed.

Lemma eqb_nan_r (x v : float) : Prim2SF v = S754_nan -> (x =? v)%float = false.
Proof.
  intros H. rewrite FloatAxioms.eqb_spec, H.
  destruct (Prim2SF x) as [s| s| |s mx ex]; try reflexivity; now destruct s.
Qed.

Lemma eqb_nan_l (x v : float) : Prim2SF v = S754_nan -> (v =? x)%float = false.
Proof. intros H. now rewrite FloatAxioms.eqb_spec, H. Qed.

Lemma leb_nan_l (x v : float) : Prim2SF v = S754_nan -> (v <=? x)%float = false.
Proof. intros H. now rewrite leb_spec, H. Qed.

Lemma sub_nan (x y : float) :
  Prim2SF x = S754_nan \/ Prim2SF y = S754_nan ->
  Prim2SF (abs (x - y)) = S754_nan.
Proof.
  intros H. rewrite abs_spec, sub_spec. unfold SF64sub, SFsub.
  destruct H as [H|H]; rewrite H; [reflexivity|].
  destruct (Prim2SF x) as [s| s| |s mx ex]; reflexivity.
Qed.

Lemma isclose_one_nan (x y : float) :
  is_nan x <> is_nan y -> Numpy.isclose x y = false.
Proof.
  intros Hdiff. unfold Numpy.isclose, Numpy.within_tol.
  destruct (is_nan x) eqn:Hx, (is_nan y) eqn:Hy; try congruence.
  - apply nan_spec in Hx.
    rewrite (leb_nan_l _ _ (sub_nan x y (or_introl Hx))).
    now rewrite (eqb_nan_l y x Hx).
  - apply nan_spec in Hy.
    rewrite (leb_nan_l _ _ (sub_nan x y (or_intror Hy))).
    now rewrite (eqb_nan_r x y Hy).
Qed.

(** X11: a missing value on one side only is a mismatch.  When two
    vectors of equal length hold NaN at some position in one of them and a
    value that is not NaN in the other, [numpy.allclose] with
    [equal_nan=True] is false. *)
Theorem allclose_one_sided_nan (a b : list float) (i : nat) (x y : float) :
  List.length a = List.length b ->
  nth_error a i = Some x ->
  nth_error b i = Some y ->
  is_nan x <> is_nan y ->
  Numpy.allclose a b = Ok false.
Proof.
  intros Hlen Ha Hb Hdiff. unfold Numpy.allclose.
  rewrite (broadcast_same_length a b Hlen). cbn [bind]. f_equal.
  apply (forallb_counterexample _ _ (x, y)).
  - now apply (nth_error_combine a b i).
  - cbn [fst snd]. now apply isclose_one_nan.
Qed.

Lemma allclose_one_sided_nan_witness :
  Numpy.allclose [1; nan; 3; 4]%float [1; 2; 3; 4]%float = Ok false.
Proof.
  apply (allclose_one_sided_nan [1; nan; 3; 4]%float [1; 2; 3; 4]%float
           1 nan 2); try reflexivity.
  vm_compute. discriminate.
Defined.

Lemma mod360_nan (lon : float) :
  is_nan lon = true -> Prim2SF (Py.mod360 lon) = S754_nan.
Proof.
  intros H. unfold Py.mod360, Py.fmod360. rewrite (nan_spec lon H).
  reflexivity.
Qed.

Lemma negated_nan (level : float) :
  is_nan level = true -> Prim2SF (-1 * level)%float = S754_nan.
Proof.
  intros H. rewrite mul_spec, (nan_spec level H). reflexivity.
Qed.

(** X12: a coordinate that is not a number is never found.  Whatever the
    axes hold, a NaN longitude, latitude or level makes [resolve] raise
    [ValueError]. *)
Theorem nan_coordinate_not_found (W : world) (lon lat level : float) :
  is_nan lon = true \/ is_nan lat = true \/ is_nan level = true ->
  resolve W lon lat level = Raise ValueError.
Proof.
  intros H. apply resolve_absent. destruct H as [H|[H|H]].
  - left. intros x _. apply eqb_nan_r. now apply mod360_nan.
  - right; left. intros y _. apply eqb_nan_r. now apply nan_spec.
  - right; right. intros z _. apply eqb_nan_r. now apply negated_nan.
Qed.

Lemma nan_coordinate_not_found_witness :
  resolve Sample.W0 359.5 nan 25 = Raise ValueError.
Proof.
  apply (nan_coordinate_not_found Sample.W0 359.5 nan 25).
  right; left. reflexivity.
Defined.

(** ** Longitudes on a fine grid *)

Lemma forallb_range (P : Z -> bool) (lo len : Z) :
  forallb P (map (fun i => (lo + Z.of_nat i)%Z) (seq 0 (Z.to_nat len))) = true ->
  forall z, (lo <= z < lo + len)%Z -> P z = true.
Proof.
  intros Hall z Hz. rewrite forallb_forall in Hall. apply Hall.
  apply in_map_iff. exists (Z.to_nat (z - lo)). split; [lia|].
  apply in_seq. lia.
Qed.

(** X13: for every longitude that is a whole number of eighths of a degree
    between -360 and 720 degrees, [% 360] gives the exact remainder: the
    result equals the longitude of the same position counted from 0, and
    it lies in [0, 360). *)
Theorem mod360_exact_on_eighths (z : Z) :
  (-2880 <= z <= 5760)%Z ->
  (Py.mod360 (eighths z) =? eighths (z mod 2880))%float = true /\
  wrapped (Py.mod360 (eighths z)) = true.
Proof.
  intros Hz. apply andb_true_iff.
  apply (forallb_range
           (fun z => (Py.mod360 (eighths z) =? eighths (z mod 2880))%float
                     && wrapped (Py.mod360 (eighths z)))
           (-2880) 8641%Z); [|lia].
  vm_compute. reflexivity.
Qed.

Lemma mod360_exact_on_eighths_witness :
  (Py.mod360 (eighths (-1444)) =? eighths (-1444 mod 2880))%float = true /\
  wrapped (Py.mod360 (eighths (-1444))) = true.
Proof. apply (mod360_exact_on_eighths (-1444)). lia. Defined.

(** ** Where a [ValueError] can come from *)

Lemma getitem_raises {A : Type} (l : list A) (i : nat) (e : exn) :
  Py.getitem l i = Raise e -> e = IndexError.
Proof.
  unfold Py.getitem. destruct (nth_error l i); [discriminate|].
  now intros [= <-].
Qed.

Lemma getitem_int_raises {A : Type} (l : list A) (i : Z) (e : exn) :
  Py.getitem_int l i = Raise e -> e = IndexError.
Proof.
  unfold Py.getitem_int.
  destruct (i <? 0)%Z; [destruct (i + Z.of_nat (List.length l) <? 0)%Z|];
    try apply getitem_raises.
  now intros [= <-].
Qed.

Lemma read_profile_raises (W : world) (p : profile) (e : exn) :
  read_profile W p = Raise e -> e = IndexError.
Proof.
  unfold read_profile, find_meta, variable_vector.
  destruct (Py.getitem (metadata p) 0) as [key|e0] eqn:E0; cbn [bind];
    [|intros [= <-]; exact (getitem_raises _ _ _ E0)].
  match goal with |- context [Py.getitem (filter ?f ?l) 0] =>
    destruct (Py.getitem (filter f l) 0) as [m|e1] eqn:E1 end; cbn [bind];
    [|intros [= <-]; exact (getitem_raises _ _ _ E1)].
  destruct (Py.getitem (coordinates p) 1) as [lat|e2] eqn:E2; cbn [bind];
    [|intros [= <-]; exact (getitem_raises _ _ _ E2)].
  destruct (Py.getitem (coordinates p) 0) as [lon|e3] eqn:E3; cbn [bind];
    [|intros [= <-]; exact (getitem_raises _ _ _ E3)].
  destruct (Py.getitem (data_info p) 0) as [names|e4] eqn:E4; cbn [bind];
    [|intros [= <-]; exact (getitem_raises _ _ _ E4)].
  destruct (variable_idx names "THETA" >? -1)%Z.
  - destruct (Py.getitem_int (data p) (variable_idx names "THETA"))
      as [theta|e5] eqn:E5; cbn [bind];
      [|intros [= <-]; exact (getitem_int_raises _ _ _ E5)].
    destruct (variable_idx names "SALT" >? -1)%Z; cbn [bind]; [|discriminate].
    destruct (Py.getitem_int (data p) (variable_idx names "SALT"))
      as [salt|e6] eqn:E6; cbn [bind];
      [discriminate | intros [= <-]; exact (getitem_int_raises _ _ _ E6)].
  - cbn [bind].
    destruct (variable_idx names "SALT" >? -1)%Z; cbn [bind]; [|discriminate].
    destruct (Py.getitem_int (data p) (variable_idx names "SALT"))
      as [salt|e6] eqn:E6; cbn [bind];
      [discriminate | intros [= <-]; exact (getitem_int_raises _ _ _ E6)].
Qed.

Lemma index2_raises (a : array2) (j i : nat) (e : exn) :
  index2 a j i = Raise e -> e = IndexError.
Proof.
  unfold index2. destruct (Py.getitem a j) as [row|e0] eqn:E0; cbn [bind].
  - apply getitem_raises.
  - intros [= <-]. exact (getitem_raises _ _ _ E0).
Qed.

Lemma index3_raises (a : array3) (k j i : nat) (e : exn) :
  index3 a k j i = Raise e -> e = IndexError.
Proof.
  unfold index3. destruct (Py.getitem a k) as [plane|e0] eqn:E0; cbn [bind].
  - apply index2_raises.
  - intros [= <-]. exact (getitem_raises _ _ _ E0).
Qed.

Lemma point_series_raises (a : array4) (k j i : nat) (e : exn) :
  point_series a k j i = Raise e -> e = IndexError.
Proof.
  induction a as [|slice a IH]; cbn [point_series]; [discriminate|].
  destruct (index3 slice k j i) as [v|e0] eqn:E0; cbn [bind];
    [|intros [= <-]; exact (index3_raises _ _ _ _ _ E0)].
  destruct (point_series a k j i) as [vs|e1]; cbn [bind]; [discriminate|].
  intros [= <-]. now apply IH.
Qed.

Lemma timeseries_raises (name : string) (f13 f14 : dataset) (i j k : nat)
  (e : exn) :
  timeseries name f13 f14 i j k = Raise e -> e <> ValueError.
Proof.
  unfold timeseries, variable.
  destruct (data_var f13 name) as [a13|]; cbn [bind];
    [|intros [= <-]; discriminate].
  destruct (point_series a13 k j i) as [s13|e0] eqn:E0; cbn [bind];
    [|intros [= <-]; rewrite (point_series_raises _ _ _ _ _ E0); discriminate].
  destruct (data_var f14 name) as [a14|]; cbn [bind];
    [|intros [= <-]; discriminate].
  destruct (point_series a14 k j i) as [s14|e1] eqn:E1; cbn [bind];
    [discriminate|].
  intros [= <-]. rewrite (point_series_raises _ _ _ _ _ E1). discriminate.
Qed.

Lemma static_reference_raises (f : dataset) (i j k : nat) (fd : field)
  (e : exn) :
  In fd static_fields -> reference fd f i j k = Raise e -> e = IndexError.
Proof.
  cbn [static_fields In]. intros Hin.
  repeat (destruct Hin as [<-|Hin];
          [cbn [reference];
           first [apply index2_raises | apply index3_raises
                 | apply getitem_raises]|]).
  destruct Hin.
Qed.

Lemma table_findings_raises (weak : bool) (fields : list field) (f : dataset) (i j k : nat)
  (p : profile) (m : meta) (e : exn) :
  (forall fd, In fd fields -> In fd static_fields) ->
  table_findings weak fields f i j k p m = Raise e -> e = IndexError.
Proof.
  induction fields as [|fd fields IH]; intros Hsub; cbn [table_findings];
    [discriminate|].
  destruct (reference fd f i j k) as [v|e0] eqn:E0; cbn [bind].
  - destruct (table_findings weak fields f i j k p m) as [rest|e1]; cbn [bind];
      [discriminate|].
    intros [= <-]. apply IH; [|reflexivity].
    intros fd' Hin. apply Hsub. now right.
  - intros [= <-].
    exact (static_reference_raises f i j k fd e0
             (Hsub fd (or_introl eq_refl)) E0).
Qed.

Lemma files_findings_raises (weak : bool) (fs : list dataset) (n i j k : nat) (p : profile)
  (m : meta) (e : exn) :
  files_findings weak fs n i j k p m = Raise e -> e = IndexError.
Proof.
  revert n. induction fs as [|f fs IH]; intros n; cbn [files_findings];
    [discriminate|].
  destruct (table_findings weak static_fields f i j k p m) as [here|e0] eqn:E0;
    cbn [bind].
  - destruct (files_findings weak fs (S n) i j k p m) as [rest|e1] eqn:E1;
      cbn [bind]; [discriminate|].
    intros [= <-]. exact (IH (S n) E1).
  - intros [= <-].
    exact (table_findings_raises weak static_fields f i j k p m e0
             (fun fd H => H) E0).
Qed.

Lemma allclose_raises (a b : list float) (e : exn) :
  Numpy.allclose a b = Raise e <->
  e = ValueError /\ List.length a <> List.length b /\
  List.length a <> 1%nat /\ List.length b <> 1%nat.
Proof.
  unfold Numpy.allclose, Numpy.broadcast.
  destruct (Nat.eqb_spec (List.length a) (List.length b)) as [Heq|Hne];
    cbn [bind].
  - split; [discriminate | intros (_ & H & _); contradiction].
  - destruct a as [|x [|x' a]]; destruct b as [|y [|y' b]]; cbn [bind];
      cbn [List.length] in *;
      (split; [try discriminate; intros [= <-]; repeat split; lia
              | intros (-> & H1 & H2 & H3); try reflexivity; lia]).
Qed.

(** X14: a pass raises [ValueError] for two reasons only.  Either the
    profile was read and its longitude modulo 360, latitude or negated
    level is missing from its axis, or the cell was found, both reference
    timeseries were extracted, and the stored THETA or SALT vector has a
    length that differs from that of its reference while neither length
    is one. *)
Theorem value_error_causes (W : world) (p : profile) :
  validation_pass W p = Raise ValueError ->
  exists m lon lat theta salt,
    read_profile W p = Ok (m, (lon, lat), (theta, salt)) /\
    (resolve W lon lat (level p) = Raise ValueError \/
     exists i j k theta_ts salt_ts,
       resolve W lon lat (level p) = Ok (i, j, k) /\
       theta_timeseries W i j k = Ok theta_ts /\
       salt_timeseries W i j k = Ok salt_ts /\
       ((List.length theta <> List.length theta_ts /\
         List.length theta <> 1%nat /\ List.length theta_ts <> 1%nat) \/
        (List.length salt <> List.length salt_ts /\
         List.length salt <> 1%nat /\ List.length salt_ts <> 1%nat))).
Proof.
  rewrite pass_refines.
  destruct (pass_findings W p) as [fs|e] eqn:P; cbn [bind]; [discriminate|].
  intros [= ->]. unfold pass_findings in P.
  destruct (read_profile W p) as [[[m [lon lat]] [theta salt]]|e] eqn:E0;
    cbn [bind] in P.
  2:{ injection P as ->. now pose proof (read_profile_raises W p _ E0). }
  exists m, lon, lat, theta, salt. split; [reflexivity|].
  destruct (resolve W lon lat (level p)) as [[[i j] k]|e] eqn:E1;
    cbn [bind] in P; [|injection P as ->; now left].
  right. exists i, j, k.
  destruct (theta_timeseries W i j k) as [theta_ts|e] eqn:E2;
    cbn [bind] in P.
  2:{ injection P as ->. now destruct (timeseries_raises _ _ _ _ _ _ _ E2). }
  destruct (salt_timeseries W i j k) as [salt_ts|e] eqn:E3; cbn [bind] in P.
  2:{ injection P as ->. now destruct (timeseries_raises _ _ _ _ _ _ _ E3). }
  exists theta_ts, salt_ts. repeat (split; [reflexivity|]).
  destruct (Numpy.allclose theta theta_ts) as [c1|e] eqn:E4; cbn [bind] in P.
  2:{ injection P as ->. left.
      now apply (allclose_raises theta theta_ts ValueError). }
  destruct (Numpy.allclose salt salt_ts) as [c2|e] eqn:E5; cbn [bind] in P.
  2:{ injection P as ->. right.
      now apply (allclose_raises salt salt_ts ValueError). }
  destruct (files_findings (nep50 W) (files W) 0 i j k p m) as [static|e] eqn:E6;
    cbn [bind] in P; [discriminate|].
  injection P as ->. now pose proof (files_findings_raises _ _ _ _ _ _ _ _ _ E6).
Qed.

Lemma value_error_causes_witness :
  exists m lon lat theta salt,
    read_profile Sample.W0 Sample.p_no_theta
    = Ok (m, (lon, lat), (theta, salt)) /\
    (resolve Sample.W0 lon lat (level Sample.p_no_theta) = Raise ValueError \/
     exists i j k theta_ts salt_ts,
       resolve Sample.W0 lon lat (level Sample.p_no_theta) = Ok (i, j, k) /\
       theta_timeseries Sample.W0 i j k = Ok theta_ts /\
       salt_timeseries Sample.W0 i j k = Ok salt_ts /\
       ((List.length theta <> List.length theta_ts /\
         List.length theta <> 1%nat /\ List.length theta_ts <> 1%nat) \/
        (List.length salt <> List.length salt_ts /\
         List.length salt <> 1%nat /\ List.length salt_ts <> 1%nat))).
Proof.
  apply (value_error_causes Sample.W0 Sample.p_no_theta).
  vm_compute. reflexivity.
Defined.
